(** * mod_voice_detector: the per-session voice / word / silence state machine

    A shallow embedding of [src/mod_voice_detector/mod_voice_detector.c]:
    the media-bug callback [voice_detector_callback], the two recording
    operations it drives ([voice_detector_start_recording],
    [voice_detector_stop_recording]) and the session set-up performed by
    [voice_detector_app_function] / [voice_detector_apply_runtime_params].

    Conventions of the embedding.
    - A C [int] is a [Z] kept in the signed 32-bit range by [to_int]
      (two's-complement wrap-around written out at every arithmetic
      operation); [switch_time_t] is a signed 64-bit integer ([to_int64]).
      Integer division is C's truncating division ([Z.quot]); a zero divisor
      (and [INT_MIN / -1]) traps, which the model reports as [None].
    - The energy score is a single-precision float.  Its computation
      (lines 434-438) is embedded on its own, as [energy_score], over the
      Standard Library's specification of IEEE 754 arithmetic ([SpecFloat]),
      with [float] as binary32, [double] as binary64 and rounding to nearest,
      ties to even, at every operation.  The state machine reads two facts
      off the score: the outcome of
      [energy > runtime_params.energy_threshold] and the integer payload
      [(int)(energy * 1000)].  A frame of the callback model carries both
      ([above_threshold], [energy_level]).
    - Everything the callback gets from its surroundings is an explicit input
      ([env]): the clock values returned by [switch_micro_time_now], the file
      name synthesised for a recording, and the status returned by the host's
      record start / stop facility.
    - [voice_detector_api_call] performs an HTTP POST; the model records the
      call itself, with its arguments, as an [ApiCall] action.  A call of
      [voice_detector_start_recording] / [voice_detector_stop_recording] from
      the callback is recorded as a [Directive].
    - The parsers ([voice_detector_parse_runtime_params],
      [voice_detector_parse_config]), the builders of the recording file
      name and of the notification request, [voice_detector_session_cleanup]
      and [voice_detector_app_function] take what the host and the C library
      hand them as inputs: the tokens [switch_separate_string] cuts, the
      [param] elements of the configuration file, the answers of the curl
      transport and of [switch_core_media_bug_add].  A store through a null
      pointer traps, like a division by zero. *)

From Stdlib Require Import String Ascii ZArith NArith List Bool Lia.
From Stdlib Require Import SpecFloat Reals Lra Psatz.
From Stdlib Require DecimalString DecimalPos DecimalZ.
Import ListNotations.
Open Scope Z_scope.

(* ------------------------------------------------------------------ *)
(** ** Machine integers *)

Definition int_min : Z := -2147483648.
Definition int_max : Z := 2147483647.
Definition int64_min : Z := -9223372036854775808.
Definition int64_max : Z := 9223372036854775807.

(** Wrap-around to a signed 32-bit [int]. *)
Definition to_int (z : Z) : Z := (z + 2147483648) mod 4294967296 - 2147483648.

(** Wrap-around to a signed 64-bit [switch_time_t]. *)
Definition to_int64 (z : Z) : Z :=
  (z + 9223372036854775808) mod 18446744073709551616 - 9223372036854775808.

Definition in_int (z : Z) : Prop := int_min <= z <= int_max.

(** [a / b] on [int]: truncation toward zero, trapping on a zero divisor and
    on [INT_MIN / -1]. *)
Definition c_div (a b : Z) : option Z :=
  if b =? 0 then None
  else if (a =? int_min) && (b =? -1) then None
  else Some (Z.quot a b).

(* ------------------------------------------------------------------ *)
(** ** Data model (mod_voice_detector.h) *)

Inductive switch_status_t : Type :=
| SWITCH_STATUS_SUCCESS
| SWITCH_STATUS_FALSE
| SWITCH_STATUS_GENERR.

Definition status_ok (st : switch_status_t) : bool :=
  match st with SWITCH_STATUS_SUCCESS => true | _ => false end.

(** Event type constants. *)
Definition VOICE_DETECTOR_EVENT_VOICE_START : Z := 1.
Definition VOICE_DETECTOR_EVENT_VOICE_END : Z := 0.
Definition VOICE_DETECTOR_EVENT_RECORDING_START : Z := 2.
Definition VOICE_DETECTOR_EVENT_RECORDING_STOP : Z := 3.
Definition VOICE_DETECTOR_EVENT_WORD_DETECTED : Z := 4.

(** [voice_detector_runtime_params_t]; the two float fields ([threshold],
    [energy_threshold]) and the path strings are not represented. *)
Record voice_detector_runtime_params_t : Type := mk_params {
  silence_ms : Z;
  hits : Z;
  timeout : Z;
  interrupt_ms : Z;
  total_analysis_time : Z;
  min_word_length : Z;
  maximum_word_length : Z;
  between_words_silence : Z;
  max_silence : Z;
  auto_record : Z;
  recording_format : Z;
  leg : string
}.

(** The fields of [voice_detector_global_t] the state machine reads. *)
Record voice_detector_global_t : Type := mk_globals {
  frame_size : Z;
  sample_rate : Z;
  debounce_ms : Z
}.

(** [voice_detector_session_t].  Pointers are integers, 0 being [NULL];
    [bug] and [pool] are not represented.  [record_session] is the field the
    header declares and the recording operations use. *)
Record voice_detector_session_t : Type := mk_session {
  session : Z;
  last_voice_time : Z;
  last_api_call_time : Z;
  voice_detected : Z;
  silence_frames : Z;
  total_frames : Z;
  uuid : string;
  record_session : Z;
  recording_file : option string;
  is_recording : Z;
  recording_start_time : Z;
  recording_duration : Z;
  runtime_params : voice_detector_runtime_params_t;
  consecutive_hits : Z;
  word_start_time : Z;
  word_end_time : Z;
  current_word_length : Z;
  between_words_silence_frames : Z;
  max_silence_frames : Z
}.

(** Field assignments, one per field the code writes. *)
Definition set_last_voice_time (v : Z) (s : voice_detector_session_t) :=
  mk_session (session s) v (last_api_call_time s) (voice_detected s)
    (silence_frames s) (total_frames s) (uuid s) (record_session s)
    (recording_file s) (is_recording s) (recording_start_time s)
    (recording_duration s) (runtime_params s) (consecutive_hits s)
    (word_start_time s) (word_end_time s) (current_word_length s)
    (between_words_silence_frames s) (max_silence_frames s).

Definition set_last_api_call_time (v : Z) (s : voice_detector_session_t) :=
  mk_session (session s) (last_voice_time s) v (voice_detected s)
    (silence_frames s) (total_frames s) (uuid s) (record_session s)
    (recording_file s) (is_recording s) (recording_start_time s)
    (recording_duration s) (runtime_params s) (consecutive_hits s)
    (word_start_time s) (word_end_time s) (current_word_length s)
    (between_words_silence_frames s) (max_silence_frames s).

Definition set_voice_detected (v : Z) (s : voice_detector_session_t) :=
  mk_session (session s) (last_voice_time s) (last_api_call_time s) v
    (silence_frames s) (total_frames s) (uuid s) (record_session s)
    (recording_file s) (is_recording s) (recording_start_time s)
    (recording_duration s) (runtime_params s) (consecutive_hits s)
    (word_start_time s) (word_end_time s) (current_word_length s)
    (between_words_silence_frames s) (max_silence_frames s).

Definition set_silence_frames (v : Z) (s : voice_detector_session_t) :=
  mk_session (session s) (last_voice_time s) (last_api_call_time s)
    (voice_detected s) v (total_frames s) (uuid s) (record_session s)
    (recording_file s) (is_recording s) (recording_start_time s)
    (recording_duration s) (runtime_params s) (consecutive_hits s)
    (word_start_time s) (word_end_time s) (current_word_length s)
    (between_words_silence_frames s) (max_silence_frames s).

Definition set_total_frames (v : Z) (s : voice_detector_session_t) :=
  mk_session (session s) (last_voice_time s) (last_api_call_time s)
    (voice_detected s) (silence_frames s) v (uuid s) (record_session s)
    (recording_file s) (is_recording s) (recording_start_time s)
    (recording_duration s) (runtime_params s) (consecutive_hits s)
    (word_start_time s) (word_end_time s) (current_word_length s)
    (between_words_silence_frames s) (max_silence_frames s).

Definition set_record_session (v : Z) (s : voice_detector_session_t) :=
  mk_session (session s) (last_voice_time s) (last_api_call_time s)
    (voice_detected s) (silence_frames s) (total_frames s) (uuid s) v
    (recording_file s) (is_recording s) (recording_start_time s)
    (recording_duration s) (runtime_params s) (consecutive_hits s)
    (word_start_time s) (word_end_time s) (current_word_length s)
    (between_words_silence_frames s) (max_silence_frames s).

Definition set_recording_file (v : option string) (s : voice_detector_session_t) :=
  mk_session (session s) (last_voice_time s) (last_api_call_time s)
    (voice_detected s) (silence_frames s) (total_frames s) (uuid s)
    (record_session s) v (is_recording s) (recording_start_time s)
    (recording_duration s) (runtime_params s) (consecutive_hits s)
    (word_start_time s) (word_end_time s) (current_word_length s)
    (between_words_silence_frames s) (max_silence_frames s).

Definition set_is_recording (v : Z) (s : voice_detector_session_t) :=
  mk_session (session s) (last_voice_time s) (last_api_call_time s)
    (voice_detected s) (silence_frames s) (total_frames s) (uuid s)
    (record_session s) (recording_file s) v (recording_start_time s)
    (recording_duration s) (runtime_params s) (consecutive_hits s)
    (word_start_time s) (word_end_time s) (current_word_length s)
    (between_words_silence_frames s) (max_silence_frames s).

Definition set_recording_start_time (v : Z) (s : voice_detector_session_t) :=
  mk_session (session s) (last_voice_time s) (last_api_call_time s)
    (voice_detected s) (silence_frames s) (total_frames s) (uuid s)
    (record_session s) (recording_file s) (is_recording s) v
    (recording_duration s) (runtime_params s) (consecutive_hits s)
    (word_start_time s) (word_end_time s) (current_word_length s)
    (between_words_silence_frames s) (max_silence_frames s).

Definition set_recording_duration (v : Z) (s : voice_detector_session_t) :=
  mk_session (session s) (last_voice_time s) (last_api_call_time s)
    (voice_detected s) (silence_frames s) (total_frames s) (uuid s)
    (record_session s) (recording_file s) (is_recording s)
    (recording_start_time s) v (runtime_params s) (consecutive_hits s)
    (word_start_time s) (word_end_time s) (current_word_length s)
    (between_words_silence_frames s) (max_silence_frames s).

Definition set_runtime_params (v : voice_detector_runtime_params_t)
    (s : voice_detector_session_t) :=
  mk_session (session s) (last_voice_time s) (last_api_call_time s)
    (voice_detected s) (silence_frames s) (total_frames s) (uuid s)
    (record_session s) (recording_file s) (is_recording s)
    (recording_start_time s) (recording_duration s) v (consecutive_hits s)
    (word_start_time s) (word_end_time s) (current_word_length s)
    (between_words_silence_frames s) (max_silence_frames s).

Definition set_consecutive_hits (v : Z) (s : voice_detector_session_t) :=
  mk_session (session s) (last_voice_time s) (last_api_call_time s)
    (voice_detected s) (silence_frames s) (total_frames s) (uuid s)
    (record_session s) (recording_file s) (is_recording s)
    (recording_start_time s) (recording_duration s) (runtime_params s) v
    (word_start_time s) (word_end_time s) (current_word_length s)
    (between_words_silence_frames s) (max_silence_frames s).

Definition set_word_start_time (v : Z) (s : voice_detector_session_t) :=
  mk_session (session s) (last_voice_time s) (last_api_call_time s)
    (voice_detected s) (silence_frames s) (total_frames s) (uuid s)
    (record_session s) (recording_file s) (is_recording s)
    (recording_start_time s) (recording_duration s) (runtime_params s)
    (consecutive_hits s) v (word_end_time s) (current_word_length s)
    (between_words_silence_frames s) (max_silence_frames s).

Definition set_word_end_time (v : Z) (s : voice_detector_session_t) :=
  mk_session (session s) (last_voice_time s) (last_api_call_time s)
    (voice_detected s) (silence_frames s) (total_frames s) (uuid s)
    (record_session s) (recording_file s) (is_recording s)
    (recording_start_time s) (recording_duration s) (runtime_params s)
    (consecutive_hits s) (word_start_time s) v (current_word_length s)
    (between_words_silence_frames s) (max_silence_frames s).

Definition set_current_word_length (v : Z) (s : voice_detector_session_t) :=
  mk_session (session s) (last_voice_time s) (last_api_call_time s)
    (voice_detected s) (silence_frames s) (total_frames s) (uuid s)
    (record_session s) (recording_file s) (is_recording s)
    (recording_start_time s) (recording_duration s) (runtime_params s)
    (consecutive_hits s) (word_start_time s) (word_end_time s) v
    (between_words_silence_frames s) (max_silence_frames s).

Definition set_silence_frame_limits (bw ms : Z) (s : voice_detector_session_t) :=
  mk_session (session s) (last_voice_time s) (last_api_call_time s)
    (voice_detected s) (silence_frames s) (total_frames s) (uuid s)
    (record_session s) (recording_file s) (is_recording s)
    (recording_start_time s) (recording_duration s) (runtime_params s)
    (consecutive_hits s) (word_start_time s) (word_end_time s)
    (current_word_length s) bw ms.

(* ------------------------------------------------------------------ *)
(** ** Inputs and observable actions *)

(** One [switch_frame_t] as the callback reads it. *)
Record frame : Type := mk_frame {
  data_present : bool;      (* frame->data != NULL *)
  samples : Z;              (* frame->samples *)
  above_threshold : bool;   (* energy > runtime_params.energy_threshold *)
  energy_level : Z          (* (int)(energy * 1000) *)
}.

(** What the surroundings answer during one callback. *)
Record env : Type := mk_env {
  now : Z;                          (* switch_micro_time_now() on entry *)
  rec_now : Z;                      (* the clock as read by start / stop recording *)
  rec_filename : option string;     (* result of voice_detector_get_recording_filename *)
  start_result : switch_status_t;   (* switch_core_session_record_start *)
  start_handle : Z;                 (* the record session it hands back *)
  stop_result : switch_status_t     (* switch_core_session_record_stop *)
}.

Inductive directive : Type := StartRecording | StopRecording.

Inductive action : Type :=
| Directive (d : directive)
| ApiCall (id : string) (event : Z) (value : Z) (on_leg : string).

(* ------------------------------------------------------------------ *)
(** ** Session set-up *)

(** The defaults [voice_detector_parse_runtime_params] starts from
    (mod_voice_detector.c, lines 91-106). *)
Definition default_runtime_params : voice_detector_runtime_params_t :=
  {| silence_ms := 150; hits := 2; timeout := 2000; interrupt_ms := 50;
     total_analysis_time := 4000; min_word_length := 100;
     maximum_word_length := 3500; between_words_silence := 50;
     max_silence := 2000; auto_record := 1; recording_format := 0;
     leg := "a" |}.

(** The defaults [voice_detector_parse_config] starts from (lines 205-212). *)
Definition default_globals : voice_detector_global_t :=
  {| frame_size := 160; sample_rate := 8000; debounce_ms := 500 |}.

(** [voice_detector_apply_runtime_params] (lines 167-185): copy the
    parameters and convert the two silence limits to frame counts. *)
Definition voice_detector_apply_runtime_params (g : voice_detector_global_t)
    (s : voice_detector_session_t) (p : voice_detector_runtime_params_t)
    : option voice_detector_session_t :=
  let s1 := set_runtime_params p s in
  match c_div (to_int (max_silence p * sample_rate g))
              (to_int (frame_size g * 1000)) with
  | None => None
  | Some ms =>
    match c_div (to_int (between_words_silence p * sample_rate g))
                (to_int (frame_size g * 1000)) with
    | None => None
    | Some bw => Some (set_silence_frame_limits bw ms s1)
    end
  end.

(** The session data as [voice_detector_app_function] fills it in before the
    media bug is attached (lines 675-695). *)
Definition voice_detector_new_session (g : voice_detector_global_t)
    (sess : Z) (id : string) (p : voice_detector_runtime_params_t)
    : option voice_detector_session_t :=
  voice_detector_apply_runtime_params g
    {| session := sess; last_voice_time := 0; last_api_call_time := 0;
       voice_detected := 0; silence_frames := 0; total_frames := 0;
       uuid := id; record_session := 0; recording_file := None;
       is_recording := 0; recording_start_time := 0;
       recording_duration := 0; runtime_params := p;
       consecutive_hits := 0; word_start_time := 0; word_end_time := 0;
       current_word_length := 0; between_words_silence_frames := 0;
       max_silence_frames := 0 |} p.

(* ------------------------------------------------------------------ *)
(** ** Recording operations *)

Definition api_call (s : voice_detector_session_t) (event value : Z) : action :=
  ApiCall (uuid s) event value (leg (runtime_params s)).

(** [voice_detector_start_recording] (lines 334-384).  The file name comes
    from [voice_detector_get_recording_filename] ([None]: no name could be
    allocated); the record session is the one the host hands back when its
    start facility succeeds. *)
Definition voice_detector_start_recording (e : env) (s : voice_detector_session_t)
    : voice_detector_session_t * list action * switch_status_t :=
  if (auto_record (runtime_params s) =? 0) || negb (is_recording s =? 0) then
    (s, [], SWITCH_STATUS_SUCCESS)
  else
    match rec_filename e with
    | None => (s, [], SWITCH_STATUS_FALSE)
    | Some filename =>
      if status_ok (start_result e) then
        let s := set_record_session (start_handle e) s in
        let s := set_recording_file (Some filename) s in
        let s := set_is_recording 1 s in
        let s := set_recording_start_time (rec_now e) s in
        let s := set_recording_duration 0 s in
        (s, [api_call s VOICE_DETECTOR_EVENT_RECORDING_START 0],
         SWITCH_STATUS_SUCCESS)
      else (s, [], start_result e)
    end.

(** [voice_detector_stop_recording] (lines 387-417).  The duration, a
    [switch_time_t], is passed to [voice_detector_api_call] as an [int]. *)
Definition voice_detector_stop_recording (e : env) (s : voice_detector_session_t)
    : voice_detector_session_t * list action * switch_status_t :=
  if (is_recording s =? 0) || (record_session s =? 0) then
    (s, [], SWITCH_STATUS_SUCCESS)
  else
    let s :=
      set_recording_duration
        (Z.quot (to_int64 (rec_now e - recording_start_time s)) 1000000) s in
    if status_ok (stop_result e) then
      let out :=
        [api_call s VOICE_DETECTOR_EVENT_RECORDING_STOP
           (to_int (recording_duration s))] in
      let s := set_record_session 0 s in
      let s := set_is_recording 0 s in
      (s, out, SWITCH_STATUS_SUCCESS)
    else (s, [], stop_result e).

(* ------------------------------------------------------------------ *)
(** ** The media bug callback *)

(** The guard on entry: [session], [frame->data] non-null and
    [samples > 0], [samples] being the [int] that [frame->samples] was read
    into (line 426); any other frame is ignored. *)
Definition frame_accepted (s : voice_detector_session_t) (f : frame) : bool :=
  negb (session s =? 0) && data_present f && (0 <? to_int (samples f)).

(** [globals->frame_size * 1000 / globals->sample_rate]: milliseconds per frame. *)
Definition frame_ms (g : voice_detector_global_t) : option Z :=
  c_div (to_int (frame_size g * 1000)) (sample_rate g).

(** [(now - session_data->last_api_call_time) > (globals->debounce_ms * 1000)]. *)
Definition debounce_elapsed (g : voice_detector_global_t)
    (s : voice_detector_session_t) (e : env) : bool :=
  to_int (debounce_ms g * 1000) <? to_int64 (now e - last_api_call_time s).

(** The debounced notification used for voice start and voice end. *)
Definition debounced_api_call (g : voice_detector_global_t) (e : env)
    (event value : Z) (s : voice_detector_session_t)
    : voice_detector_session_t * list action :=
  if debounce_elapsed g s e then
    (set_last_api_call_time (now e) s, [api_call s event value])
  else (s, []).

(** [voice_detector_callback] (lines 420-520): one frame.  [None] is a trap
    in the integer division by [sample_rate].  The two branches of the outer
    conditional are the frame's energy above the threshold and at or below
    it. *)
Definition voice_detector_callback (g : voice_detector_global_t)
    (s : voice_detector_session_t) (e : env) (f : frame)
    : option (voice_detector_session_t * list action) :=
  if negb (frame_accepted s f) then Some (s, [])
  else
    let s := set_total_frames (to_int (total_frames s + 1)) s in
    if above_threshold f then
      if voice_detected s =? 0 then
        let s := set_consecutive_hits (to_int (consecutive_hits s + 1)) s in
        let '(s, out1) :=
          debounced_api_call g e VOICE_DETECTOR_EVENT_VOICE_START
            (energy_level f) s in
        if hits (runtime_params s) <=? consecutive_hits s then
          let s := set_voice_detected 1 s in
          let s := set_last_voice_time (now e) s in
          let s := set_silence_frames 0 s in
          let s := set_word_start_time (to_int (now e)) s in
          let s := set_current_word_length 0 s in
          let '(s, out2, _) := voice_detector_start_recording e s in
          Some (s, out1 ++ Directive StartRecording :: out2)
        else Some (s, out1)
      else
        let s := set_consecutive_hits 0 s in
        match frame_ms g with
        | None => None
        | Some d =>
          let s := set_current_word_length (to_int (current_word_length s + d)) s in
          if maximum_word_length (runtime_params s) <? current_word_length s then
            let s := set_voice_detected 0 s in
            let s := set_consecutive_hits 0 s in
            let '(s, out, _) := voice_detector_stop_recording e s in
            Some (s, Directive StopRecording :: out)
          else Some (s, [])
        end
    else
      if voice_detected s =? 0 then Some (s, [])
      else
        let s := set_silence_frames (to_int (silence_frames s + 1)) s in
        let s := set_consecutive_hits 0 s in
        match frame_ms g with
        | None => None
        | Some d =>
          let silence_duration := to_int (silence_frames s * d) in
          if max_silence (runtime_params s) <? silence_duration then
            let s := set_voice_detected 0 s in
            let '(s, out1, _) := voice_detector_stop_recording e s in
            let '(s, out2) :=
              debounced_api_call g e VOICE_DETECTOR_EVENT_VOICE_END
                (energy_level f) s in
            Some (s, Directive StopRecording :: out1 ++ out2)
          else if between_words_silence (runtime_params s) <? silence_duration then
            if min_word_length (runtime_params s) <=? current_word_length s then
              let s := set_word_end_time (to_int (now e)) s in
              let word_duration :=
                Z.quot (to_int (word_end_time s - word_start_time s)) 1000000 in
              let out := [api_call s VOICE_DETECTOR_EVENT_WORD_DETECTED word_duration] in
              let s := set_word_start_time (to_int (now e)) s in
              let s := set_current_word_length 0 s in
              Some (s, out)
            else Some (s, [])
          else Some (s, [])
        end.

(** Frames delivered in order on the session's media thread; each action is
    stamped with the callback's clock reading. *)
Fixpoint run (g : voice_detector_global_t) (s : voice_detector_session_t)
    (ins : list (env * frame))
    : option (voice_detector_session_t * list (Z * action)) :=
  match ins with
  | [] => Some (s, [])
  | (e, f) :: rest =>
    match voice_detector_callback g s e f with
    | None => None
    | Some (s1, out) =>
      match run g s1 rest with
      | None => None
      | Some (s2, tr) => Some (s2, map (pair (now e)) out ++ tr)
      end
    end
  end.

(** Observations on action lists. *)
Definition is_event (ev : Z) (a : action) : bool :=
  match a with ApiCall _ k _ _ => k =? ev | Directive _ => false end.

Definition is_voice_event (a : action) : bool :=
  is_event VOICE_DETECTOR_EVENT_VOICE_START a
  || is_event VOICE_DETECTOR_EVENT_VOICE_END a.

Definition is_directive (d : directive) (a : action) : bool :=
  match a, d with
  | Directive StartRecording, StartRecording => true
  | Directive StopRecording, StopRecording => true
  | _, _ => false
  end.

Definition count_event (ev : Z) (out : list action) : nat :=
  length (filter (is_event ev) out).

(** What is left of an action list once the debounced voice notifications
    are taken out: the directives and the recording / word notifications. *)
Definition unthrottled (out : list action) : list action :=
  filter (fun a => negb (is_voice_event a)) out.

(* ------------------------------------------------------------------ *)
(** ** Vocabulary of the properties *)

(** Frames that pass the callback's guard, by loudness. *)
Definition frame_valid (f : frame) : bool :=
  data_present f && (0 <? to_int (samples f)).

Definition loud (i : env * frame) : bool :=
  frame_valid (snd i) && above_threshold (snd i).

Definition quiet (i : env * frame) : bool :=
  frame_valid (snd i) && negb (above_threshold (snd i)).

(** The [silence_duration] the callback computes on the [n]-th consecutive
    below-threshold frame processed from [s] while the voice is on:
    [silence_frames] has been incremented [n] times and is multiplied by the
    milliseconds per frame [d]. *)
Definition silence_duration_after (s : voice_detector_session_t) (d : Z)
    (n : nat) : Z :=
  to_int (to_int (silence_frames s + Z.of_nat n) * d).

Definition no_event (ev : Z) (out : list action) : Prop :=
  count_event ev out = 0%nat.

Definition no_directive (d : directive) (out : list action) : Prop :=
  filter (is_directive d) out = [].

(** Two sessions that agree on everything but [last_api_call_time]. *)
Definition throttle_equiv (a b : voice_detector_session_t) : Prop :=
  set_last_api_call_time 0 a = set_last_api_call_time 0 b.

(** Two configurations that agree on the audio geometry (and may differ in
    [debounce_ms]). *)
Definition same_geometry (g1 g2 : voice_detector_global_t) : Prop :=
  frame_size g1 = frame_size g2 /\ sample_rate g1 = sample_rate g2.

(** The stamped trace without the voice notifications. *)
Definition unthrottled_trace (tr : list (Z * action)) : list (Z * action) :=
  filter (fun ta => negb (is_voice_event (snd ta))) tr.



(** [audio_data[i] * audio_data[i]]: the product of two [int16_t] samples,
    computed in [int]. *)
Definition sample_square (x : Z) : Z := to_int (x * x).

Definition in_int16 (x : Z) : Prop := -32768 <= x <= 32767.

(** While the voice is on, the word length is within its limit. *)
Definition word_within_limit (s : voice_detector_session_t) : Prop :=
  voice_detected s <> 0 ->
  current_word_length s <= maximum_word_length (runtime_params s).

(** The actions of one frame, grouped in the order of the transitions:
    voice-start notifications, then the start directive with its
    recording-started notification, then the stop directive with its
    recording-stopped notification, then voice-end notifications, then word
    notifications. *)
Definition frame_actions_ordered (out : list action) : Prop :=
  exists voice_start start stop voice_end word,
    out = voice_start ++ start ++ stop ++ voice_end ++ word
    /\ Forall (fun a => is_event VOICE_DETECTOR_EVENT_VOICE_START a = true) voice_start
    /\ Forall (fun a => is_directive StartRecording a = true
                        \/ is_event VOICE_DETECTOR_EVENT_RECORDING_START a = true) start
    /\ Forall (fun a => is_directive StopRecording a = true
                        \/ is_event VOICE_DETECTOR_EVENT_RECORDING_STOP a = true) stop
    /\ Forall (fun a => is_event VOICE_DETECTOR_EVENT_VOICE_END a = true) voice_end
    /\ Forall (fun a => is_event VOICE_DETECTOR_EVENT_WORD_DETECTED a = true) word.

(* ------------------------------------------------------------------ *)
(** ** Concrete sessions and frames used in the examples *)

(** A frame of 160 samples scoring 0.2, above every threshold used below. *)
Definition loud_frame : frame :=
  {| data_present := true; samples := 160; above_threshold := true;
     energy_level := 200 |}.

(** A frame of 160 samples scoring 0.01, below every threshold used below. *)
Definition quiet_frame : frame :=
  {| data_present := true; samples := 160; above_threshold := false;
     energy_level := 10 |}.

(** A cooperative host at clock reading [t] (microseconds). *)
Definition env_at (t : Z) : env :=
  {| now := t; rec_now := t;
     rec_filename := Some "/tmp/voice_detection_call-1_1700000000.wav"%string;
     start_result := SWITCH_STATUS_SUCCESS; start_handle := 77;
     stop_result := SWITCH_STATUS_SUCCESS |}.

(** A host whose record-stop facility fails. *)
Definition env_stop_fails (t : Z) : env :=
  {| now := t; rec_now := t;
     rec_filename := Some "/tmp/voice_detection_call-1_1700000000.wav"%string;
     start_result := SWITCH_STATUS_SUCCESS; start_handle := 77;
     stop_result := SWITCH_STATUS_GENERR |}.

(** The clock when the examples start, and one frame period (20 ms). *)
Definition t0 : Z := 1700000000000000.
Definition tick : Z := 20000.

(** [n] frames [f] delivered one frame period apart, the first at [t]. *)
Fixpoint frames_from (t : Z) (n : nat) (f : frame) : list (env * frame) :=
  match n with
  | O => []
  | S n' => (env_at t, f) :: frames_from (t + tick) n' f
  end.

(** A session as [voice_detector_app_function] creates it for the parameters
    [p], with the frame limits [voice_detector_apply_runtime_params] derives
    from them. *)
Definition fresh_session (p : voice_detector_runtime_params_t) (bw ms : Z)
    : voice_detector_session_t :=
  {| session := 1; last_voice_time := 0; last_api_call_time := 0;
     voice_detected := 0; silence_frames := 0; total_frames := 0;
     uuid := "call-1"; record_session := 0; recording_file := None;
     is_recording := 0; recording_start_time := 0; recording_duration := 0;
     runtime_params := p;
     consecutive_hits := 0; word_start_time := 0; word_end_time := 0;
     current_word_length := 0; between_words_silence_frames := bw;
     max_silence_frames := ms |}.

(** The session created for the default parameters and geometry. *)
Definition session0 : voice_detector_session_t :=
  fresh_session default_runtime_params 2 100.

Definition after_run (g : voice_detector_global_t)
    (s : voice_detector_session_t) (ins : list (env * frame))
    : voice_detector_session_t :=
  match run g s ins with Some (s', _) => s' | None => s end.

Definition trace_of (g : voice_detector_global_t)
    (s : voice_detector_session_t) (ins : list (env * frame))
    : list (Z * action) :=
  match run g s ins with Some (_, tr) => tr | None => [] end.

(** A session with [max_silence=100] on the default geometry, and the state
    it is in after two frames above the threshold: voice confirmed at
    [t0 + 20 ms], voice-start notification dispatched at [t0]. *)
Definition short_silence_params : voice_detector_runtime_params_t :=
  {| silence_ms := 150; hits := 2; timeout := 2000; interrupt_ms := 50;
     total_analysis_time := 4000; min_word_length := 100;
     maximum_word_length := 3500; between_words_silence := 50;
     max_silence := 100; auto_record := 1; recording_format := 0;
     leg := "a" |}.

Definition short_silence_session : voice_detector_session_t :=
  fresh_session short_silence_params 2 5.

Definition short_silence_voiced : voice_detector_session_t :=
  Eval vm_compute in
    after_run default_globals short_silence_session (frames_from t0 2 loud_frame).

(** The session [short_silence_voiced] as it would be had the voice-start
    notification been suppressed: [last_api_call_time] still at its initial
    value. *)
Definition short_silence_voiced_unnotified : voice_detector_session_t :=
  set_last_api_call_time 0 short_silence_voiced.

(** The default session after ten frames above the threshold (160 ms of
    word accumulated), and after two more frames of silence. *)
Definition voiced_session : voice_detector_session_t :=
  Eval vm_compute in
    after_run default_globals session0 (frames_from t0 10 loud_frame).

Definition voiced_session_gap : voice_detector_session_t :=
  Eval vm_compute in
    after_run default_globals voiced_session
      (frames_from (t0 + 10 * tick) 2 quiet_frame).

(** A session whose word-length limits are both -1
    ([min_word_length=-1 maximum_word_length=-1]). *)
Definition negative_limit_params : voice_detector_runtime_params_t :=
  {| silence_ms := 150; hits := 2; timeout := 2000; interrupt_ms := 50;
     total_analysis_time := 4000; min_word_length := -1;
     maximum_word_length := -1; between_words_silence := 50;
     max_silence := 2000; auto_record := 1; recording_format := 0;
     leg := "a" |}.

Definition negative_limit_session : voice_detector_session_t :=
  fresh_session negative_limit_params 2 100.

(** The default session after 177 frames above the threshold: the voice has
    been on for 175 frames and [current_word_length] has reached the limit,
    3500 ms. *)
Definition long_word_session : voice_detector_session_t :=
  Eval vm_compute in
    after_run default_globals session0 (frames_from t0 177 loud_frame).

(** A session that needs thirty hits to confirm the voice ([hits=30]). *)
Definition slow_confirm_params : voice_detector_runtime_params_t :=
  {| silence_ms := 150; hits := 30; timeout := 2000; interrupt_ms := 50;
     total_analysis_time := 4000; min_word_length := 100;
     maximum_word_length := 3500; between_words_silence := 50;
     max_silence := 2000; auto_record := 1; recording_format := 0;
     leg := "a" |}.

Definition slow_confirm_session : voice_detector_session_t :=
  fresh_session slow_confirm_params 2 100.

(** The default session after one frame above the threshold: one hit
    counted, voice-start notification dispatched at [t0]. *)
Definition one_hit_session : voice_detector_session_t :=
  Eval vm_compute in
    after_run default_globals session0 (frames_from t0 1 loud_frame).

(** The stamped trace of the two frames that confirm the voice on the
    default session. *)
Definition confirm_trace : list (Z * action) :=
  [(t0, ApiCall "call-1" VOICE_DETECTOR_EVENT_VOICE_START 200 "a");
   (t0 + tick, Directive StartRecording);
   (t0 + tick, ApiCall "call-1" VOICE_DETECTOR_EVENT_RECORDING_START 0 "a")].


(* ------------------------------------------------------------------ *)
(** ** C library functions the module calls *)

(** [tolower] in the C locale. *)
Definition tolower (c : ascii) : ascii :=
  let n := N_of_ascii c in
  if ((65 <=? n) && (n <=? 90))%N then ascii_of_N (n + 32) else c.

Fixpoint lower (s : string) : string :=
  match s with
  | EmptyString => EmptyString
  | String c r => String (tolower c) (lower r)
  end.

(** [!strcasecmp(a, b)]: the two strings are equal up to the case of
    their letters. *)
Definition strcasecmp_eq (a b : string) : bool := String.eqb (lower a) (lower b).

(** [strchr(arg, '=')] followed by [*equals = '\0']: the text before the
    first ['='] and the text after it; [None] when there is no ['=']. *)
Fixpoint split_equals (s : string) : option (string * string) :=
  match s with
  | EmptyString => None
  | String c r =>
    if Ascii.eqb c "=" then Some (EmptyString, r)
    else match split_equals r with
         | Some (k, v) => Some (String c k, v)
         | None => None
         end
  end.

(** [isspace] and the value of a decimal digit. *)
Definition isspace (c : ascii) : bool :=
  let n := N_of_ascii c in
  ((n =? 32) || ((9 <=? n) && (n <=? 13)))%N.

Definition digit_of (c : ascii) : option Z :=
  let n := N_of_ascii c in
  if ((48 <=? n) && (n <=? 57))%N then Some (Z.of_N n - 48) else None.

Fixpoint skip_spaces (s : string) : string :=
  match s with
  | EmptyString => EmptyString
  | String c r => if isspace c then skip_spaces r else s
  end.

Fixpoint digits_value (acc : Z) (s : string) : Z :=
  match s with
  | EmptyString => acc
  | String c r =>
    match digit_of c with
    | Some d => digits_value (acc * 10 + d) r
    | None => acc
    end
  end.

(** The number [strtol(s, NULL, 10)] reads: leading white space, an optional
    sign, then digits up to the first character that is not one; 0 when
    there is no digit. *)
Definition strtol_value (s : string) : Z :=
  match skip_spaces s with
  | String "-" r => - digits_value 0 r
  | String "+" r => digits_value 0 r
  | t => digits_value 0 t
  end.

(** [atoi]: [(int) strtol(s, NULL, 10)], [strtol] saturating at the bounds
    of [long]. *)
Definition atoi (s : string) : Z :=
  to_int (Z.max int64_min (Z.min int64_max (strtol_value s))).

(** ["%ld"]. *)
Definition print_long (z : Z) : string :=
  DecimalString.NilZero.string_of_int (Z.to_int z).

(* ------------------------------------------------------------------ *)
(** ** Runtime parameters and configuration *)

(** All of [voice_detector_runtime_params_t] as the parser fills it: the
    integer fields and [leg] in [args_params]; for the two float fields the
    text [atof] is applied to ([None]: the defaults, 0.5 and 0.05); the two
    path strings ([None]: [NULL]). *)
Record voice_detector_runtime_args : Type := mk_args {
  args_params : voice_detector_runtime_params_t;
  args_threshold : option string;
  args_energy_threshold : option string;
  args_recording_path : option string;
  args_recording_prefix : option string
}.

(** The integer parameters, by the name the parser knows them under. *)
Inductive int_param : Type :=
| P_silence_ms | P_hits | P_timeout | P_interrupt_ms | P_total_analysis_time
| P_min_word_length | P_maximum_word_length | P_between_words_silence
| P_max_silence | P_auto_record | P_recording_format.

Definition int_param_name (k : int_param) : string :=
  match k with
  | P_silence_ms => "silence_ms"
  | P_hits => "hits"
  | P_timeout => "timeout"
  | P_interrupt_ms => "interrupt_ms"
  | P_total_analysis_time => "total_analysis_time"
  | P_min_word_length => "min_word_length"
  | P_maximum_word_length => "maximum_word_length"
  | P_between_words_silence => "between_words_silence"
  | P_max_silence => "max_silence"
  | P_auto_record => "auto_record"
  | P_recording_format => "recording_format"
  end.

Definition get_int_param (k : int_param) (p : voice_detector_runtime_params_t) : Z :=
  match k with
  | P_silence_ms => silence_ms p
  | P_hits => hits p
  | P_timeout => timeout p
  | P_interrupt_ms => interrupt_ms p
  | P_total_analysis_time => total_analysis_time p
  | P_min_word_length => min_word_length p
  | P_maximum_word_length => maximum_word_length p
  | P_between_words_silence => between_words_silence p
  | P_max_silence => max_silence p
  | P_auto_record => auto_record p
  | P_recording_format => recording_format p
  end.

(** [params-><field> = v]. *)
Definition set_int_param (k : int_param) (v : Z)
    (p : voice_detector_runtime_params_t) : voice_detector_runtime_params_t :=
  mk_params
    (match k with P_silence_ms => v | _ => silence_ms p end)
    (match k with P_hits => v | _ => hits p end)
    (match k with P_timeout => v | _ => timeout p end)
    (match k with P_interrupt_ms => v | _ => interrupt_ms p end)
    (match k with P_total_analysis_time => v | _ => total_analysis_time p end)
    (match k with P_min_word_length => v | _ => min_word_length p end)
    (match k with P_maximum_word_length => v | _ => maximum_word_length p end)
    (match k with P_between_words_silence => v | _ => between_words_silence p end)
    (match k with P_max_silence => v | _ => max_silence p end)
    (match k with P_auto_record => v | _ => auto_record p end)
    (match k with P_recording_format => v | _ => recording_format p end)
    (leg p).

Definition set_leg (v : string) (p : voice_detector_runtime_params_t)
    : voice_detector_runtime_params_t :=
  mk_params (silence_ms p) (hits p) (timeout p) (interrupt_ms p)
    (total_analysis_time p) (min_word_length p) (maximum_word_length p)
    (between_words_silence p) (max_silence p) (auto_record p)
    (recording_format p) v.

Definition set_args_params (f : voice_detector_runtime_params_t ->
                                voice_detector_runtime_params_t)
    (a : voice_detector_runtime_args) : voice_detector_runtime_args :=
  mk_args (f (args_params a)) (args_threshold a) (args_energy_threshold a)
    (args_recording_path a) (args_recording_prefix a).

(** The values [voice_detector_parse_runtime_params] sets before it looks
    at its input (lines 91-106). *)
Definition default_runtime_args : voice_detector_runtime_args :=
  {| args_params := default_runtime_params;
     args_threshold := None; args_energy_threshold := None;
     args_recording_path := None; args_recording_prefix := None |}.

(** The body of the loop over [argv] (lines 119-160): one token. *)
Definition parse_runtime_token (a : voice_detector_runtime_args) (arg : string)
    : voice_detector_runtime_args :=
  match split_equals arg with
  | None => a
  | Some (key, value) =>
    if strcasecmp_eq key "silence_ms" then
      set_args_params (set_int_param P_silence_ms (atoi value)) a
    else if strcasecmp_eq key "threshold" then
      mk_args (args_params a) (Some value) (args_energy_threshold a)
        (args_recording_path a) (args_recording_prefix a)
    else if strcasecmp_eq key "hits" then
      set_args_params (set_int_param P_hits (atoi value)) a
    else if strcasecmp_eq key "timeout" then
      set_args_params (set_int_param P_timeout (atoi value)) a
    else if strcasecmp_eq key "interrupt_ms" then
      set_args_params (set_int_param P_interrupt_ms (atoi value)) a
    else if strcasecmp_eq key "energy_threshold" then
      mk_args (args_params a) (args_threshold a) (Some value)
        (args_recording_path a) (args_recording_prefix a)
    else if strcasecmp_eq key "total_analysis_time" then
      set_args_params (set_int_param P_total_analysis_time (atoi value)) a
    else if strcasecmp_eq key "min_word_length" then
      set_args_params (set_int_param P_min_word_length (atoi value)) a
    else if strcasecmp_eq key "maximum_word_length" then
      set_args_params (set_int_param P_maximum_word_length (atoi value)) a
    else if strcasecmp_eq key "between_words_silence" then
      set_args_params (set_int_param P_between_words_silence (atoi value)) a
    else if strcasecmp_eq key "max_silence" then
      set_args_params (set_int_param P_max_silence (atoi value)) a
    else if strcasecmp_eq key "auto_record" then
      set_args_params (set_int_param P_auto_record (atoi value)) a
    else if strcasecmp_eq key "recording_format" then
      set_args_params (set_int_param P_recording_format (atoi value)) a
    else if strcasecmp_eq key "recording_path" then
      mk_args (args_params a) (args_threshold a) (args_energy_threshold a)
        (Some value) (args_recording_prefix a)
    else if strcasecmp_eq key "recording_prefix" then
      mk_args (args_params a) (args_threshold a) (args_energy_threshold a)
        (args_recording_path a) (Some value)
    else if strcasecmp_eq key "leg" then
      set_args_params (set_leg value) a
    else a
  end.

(** [voice_detector_parse_runtime_params] (lines 88-164).  [argv] is what
    [switch_separate_string] makes of the application data (no token for
    null or empty data, for which the function returns the defaults before
    the loop). *)
Definition voice_detector_parse_runtime_params (argv : list string)
    : voice_detector_runtime_args :=
  fold_left parse_runtime_token argv default_runtime_args.

(** All of [voice_detector_global_t] that [voice_detector_parse_config]
    fills ([None]: [NULL]); [pool], [mutex] and [sessions] are not part of
    it. *)
Record voice_detector_settings : Type := mk_settings {
  cfg_api_url : option string;
  cfg_api_key : option string;
  cfg_recording_path : option string;
  cfg_recording_prefix : option string;
  cfg_energy_threshold : Z;
  cfg_silence_threshold : Z;
  cfg_frame_size : Z;
  cfg_sample_rate : Z;
  cfg_debounce_ms : Z;
  cfg_max_silence_duration : Z;
  cfg_auto_record : Z;
  cfg_recording_format : Z
}.

(** The part of the configuration the callback reads. *)
Definition geometry_of (c : voice_detector_settings) : voice_detector_global_t :=
  {| frame_size := cfg_frame_size c; sample_rate := cfg_sample_rate c;
     debounce_ms := cfg_debounce_ms c |}.

(** The local variables of [voice_detector_parse_config]: the last value
    seen for each setting, [None] while there is none. *)
Record config_values : Type := mk_values {
  v_api_url : option string;
  v_api_key : option string;
  v_recording_path : option string;
  v_recording_prefix : option string;
  v_energy_threshold : option string;
  v_silence_threshold : option string;
  v_frame_size : option string;
  v_sample_rate : option string;
  v_debounce_ms : option string;
  v_max_silence_duration : option string;
  v_auto_record : option string;
  v_recording_format : option string
}.

Definition no_config_values : config_values :=
  mk_values None None None None None None None None None None None None.

(** The body of the loop over the [param] elements (lines 221-250). *)
Definition read_config_param (v : config_values) (param : string * string)
    : config_values :=
  let '(var, val) := param in
  if strcasecmp_eq var "api-url" then
    mk_values (Some val) (v_api_key v) (v_recording_path v) (v_recording_prefix v)
      (v_energy_threshold v) (v_silence_threshold v) (v_frame_size v)
      (v_sample_rate v) (v_debounce_ms v) (v_max_silence_duration v)
      (v_auto_record v) (v_recording_format v)
  else if strcasecmp_eq var "api-key" then
    mk_values (v_api_url v) (Some val) (v_recording_path v) (v_recording_prefix v)
      (v_energy_threshold v) (v_silence_threshold v) (v_frame_size v)
      (v_sample_rate v) (v_debounce_ms v) (v_max_silence_duration v)
      (v_auto_record v) (v_recording_format v)
  else if strcasecmp_eq var "recording-path" then
    mk_values (v_api_url v) (v_api_key v) (Some val) (v_recording_prefix v)
      (v_energy_threshold v) (v_silence_threshold v) (v_frame_size v)
      (v_sample_rate v) (v_debounce_ms v) (v_max_silence_duration v)
      (v_auto_record v) (v_recording_format v)
  else if strcasecmp_eq var "recording-prefix" then
    mk_values (v_api_url v) (v_api_key v) (v_recording_path v) (Some val)
      (v_energy_threshold v) (v_silence_threshold v) (v_frame_size v)
      (v_sample_rate v) (v_debounce_ms v) (v_max_silence_duration v)
      (v_auto_record v) (v_recording_format v)
  else if strcasecmp_eq var "energy-threshold" then
    mk_values (v_api_url v) (v_api_key v) (v_recording_path v) (v_recording_prefix v)
      (Some val) (v_silence_threshold v) (v_frame_size v)
      (v_sample_rate v) (v_debounce_ms v) (v_max_silence_duration v)
      (v_auto_record v) (v_recording_format v)
  else if strcasecmp_eq var "silence-threshold" then
    mk_values (v_api_url v) (v_api_key v) (v_recording_path v) (v_recording_prefix v)
      (v_energy_threshold v) (Some val) (v_frame_size v)
      (v_sample_rate v) (v_debounce_ms v) (v_max_silence_duration v)
      (v_auto_record v) (v_recording_format v)
  else if strcasecmp_eq var "frame-size" then
    mk_values (v_api_url v) (v_api_key v) (v_recording_path v) (v_recording_prefix v)
      (v_energy_threshold v) (v_silence_threshold v) (Some val)
      (v_sample_rate v) (v_debounce_ms v) (v_max_silence_duration v)
      (v_auto_record v) (v_recording_format v)
  else if strcasecmp_eq var "sample-rate" then
    mk_values (v_api_url v) (v_api_key v) (v_recording_path v) (v_recording_prefix v)
      (v_energy_threshold v) (v_silence_threshold v) (v_frame_size v)
      (Some val) (v_debounce_ms v) (v_max_silence_duration v)
      (v_auto_record v) (v_recording_format v)
  else if strcasecmp_eq var "debounce-ms" then
    mk_values (v_api_url v) (v_api_key v) (v_recording_path v) (v_recording_prefix v)
      (v_energy_threshold v) (v_silence_threshold v) (v_frame_size v)
      (v_sample_rate v) (Some val) (v_max_silence_duration v)
      (v_auto_record v) (v_recording_format v)
  else if strcasecmp_eq var "max-silence-duration" then
    mk_values (v_api_url v) (v_api_key v) (v_recording_path v) (v_recording_prefix v)
      (v_energy_threshold v) (v_silence_threshold v) (v_frame_size v)
      (v_sample_rate v) (v_debounce_ms v) (Some val)
      (v_auto_record v) (v_recording_format v)
  else if strcasecmp_eq var "auto-record" then
    mk_values (v_api_url v) (v_api_key v) (v_recording_path v) (v_recording_prefix v)
      (v_energy_threshold v) (v_silence_threshold v) (v_frame_size v)
      (v_sample_rate v) (v_debounce_ms v) (v_max_silence_duration v)
      (Some val) (v_recording_format v)
  else if strcasecmp_eq var "recording-format" then
    mk_values (v_api_url v) (v_api_key v) (v_recording_path v) (v_recording_prefix v)
      (v_energy_threshold v) (v_silence_threshold v) (v_frame_size v)
      (v_sample_rate v) (v_debounce_ms v) (v_max_silence_duration v)
      (v_auto_record v) (Some val)
  else v.

(** "Set defaults" (lines 205-212): the eight integer settings; the four
    strings are left as they are. *)
Definition config_defaults (c : voice_detector_settings) : voice_detector_settings :=
  mk_settings (cfg_api_url c) (cfg_api_key c) (cfg_recording_path c)
    (cfg_recording_prefix c) 1000 100 160 8000 500 2000 1 0.

Definition or_string (o : option string) (dflt : option string) : option string :=
  match o with Some s => Some s | None => dflt end.

Definition or_atoi (o : option string) (dflt : Z) : Z :=
  match o with Some s => atoi s | None => dflt end.

(** "Apply configuration values" (lines 254-293). *)
Definition apply_config_values (v : config_values) (c : voice_detector_settings)
    : voice_detector_settings :=
  mk_settings
    (or_string (v_api_url v) (cfg_api_url c))
    (or_string (v_api_key v) (cfg_api_key c))
    (or_string (v_recording_path v) (Some "/tmp"%string))
    (or_string (v_recording_prefix v) (Some "voice_detection"%string))
    (or_atoi (v_energy_threshold v) (cfg_energy_threshold c))
    (or_atoi (v_silence_threshold v) (cfg_silence_threshold c))
    (or_atoi (v_frame_size v) (cfg_frame_size c))
    (or_atoi (v_sample_rate v) (cfg_sample_rate c))
    (or_atoi (v_debounce_ms v) (cfg_debounce_ms c))
    (or_atoi (v_max_silence_duration v) (cfg_max_silence_duration c))
    (or_atoi (v_auto_record v) (cfg_auto_record c))
    (or_atoi (v_recording_format v) (cfg_recording_format c)).

(** [voice_detector_parse_config] (lines 188-297).  [xml] is what
    [switch_xml_open_cfg] finds: [None] when there is no
    [voice_detector.conf], otherwise the (name, value) pairs of the [param]
    elements under [settings], in document order (none when the section is
    missing).  [c] is the configuration on entry. *)
Definition voice_detector_parse_config (xml : option (list (string * string)))
    (c : voice_detector_settings) : voice_detector_settings :=
  let c := config_defaults c in
  match xml with
  | None => c
  | Some params =>
    apply_config_values (fold_left read_config_param params no_config_values) c
  end.

(** The recording path and prefix of a session once
    [voice_detector_apply_runtime_params] has copied the parameters (lines
    170-178): the session's own, else the configuration's. *)
Definition session_recording_path (c : voice_detector_settings)
    (a : voice_detector_runtime_args) : option string :=
  or_string (args_recording_path a) (cfg_recording_path c).

Definition session_recording_prefix (c : voice_detector_settings)
    (a : voice_detector_runtime_args) : option string :=
  or_string (args_recording_prefix a) (cfg_recording_prefix c).

(* ------------------------------------------------------------------ *)
(** ** Recording file names *)

(** The [switch] on [recording_format] (lines 307-317). *)
Definition recording_extension (format : Z) : string :=
  if format =? 1 then "mp3" else if format =? 2 then "ogg" else "wav".

(** [voice_detector_get_recording_filename] (lines 300-331), for a session
    that has a recording path and prefix: ["%s/%s_%s_%s.%s"] of the path,
    the prefix, the uuid, the clock in whole seconds printed with ["%ld"],
    and the extension. *)
Definition voice_detector_get_recording_filename (path prefix id : string)
    (format : Z) (clock : Z) : string :=
  (path ++ "/" ++ prefix ++ "_" ++ id ++ "_"
   ++ print_long (Z.quot clock 1000000) ++ "." ++ recording_extension format)%string.

(* ------------------------------------------------------------------ *)
(** ** The notification request *)

Inductive json_value : Type :=
| JString (s : string)
| JInt (n : Z).

(** What the transport answers: whether [switch_curl_easy_init] returned a
    handle, whether [switch_curl_easy_perform] returned [CURLE_OK], and the
    HTTP response code. *)
Record api_transport : Type := mk_transport {
  curl_ready : bool;
  perform_ok : bool;
  http_code : Z
}.

(** The request handed to curl: the URL, the members of the JSON object in
    the order they are added, the header lines, the time-out in seconds. *)
Record api_request : Type := mk_request {
  req_url : string;
  req_json : list (string * json_value);
  req_headers : list string;
  req_timeout : Z
}.

(** The members added after the five common ones (lines 550-562). *)
Definition event_members (voice_detected energy_level : Z)
    : list (string * json_value) :=
  if voice_detected =? 2 then
    [("event_type"%string, JString "recording_started")]
  else if voice_detected =? 3 then
    [("event_type"%string, JString "recording_stopped");
     ("recording_duration"%string, JInt energy_level)]
  else if voice_detected =? 1 then
    [("event_type"%string, JString "voice_started")]
  else if voice_detected =? 0 then
    [("event_type"%string, JString "voice_ended")]
  else if voice_detected =? 4 then
    [("event_type"%string, JString "word_detected");
     ("word_duration"%string, JInt energy_level)]
  else [].

(** The JSON object (lines 542-562).  The time stamp is
    [(int)switch_micro_time_now() / 1000000]: the cast applies to the clock,
    the division to its result. *)
Definition api_json (clock : Z) (id : string) (voice_detected energy_level : Z)
    (on_leg : option string) : list (string * json_value) :=
  [("uuid"%string, JString id);
   ("leg"%string, JString (match on_leg with Some l => l | None => "a" end));
   ("voice_detected"%string, JInt voice_detected);
   ("energy_level"%string, JInt energy_level);
   ("timestamp"%string, JInt (Z.quot (to_int clock) 1000000))]
  ++ event_members voice_detected energy_level.

(** The header lines (lines 567-572); the authorization line is written
    with [snprintf] into 256 bytes, so at most 255 characters of it are
    kept. *)
Definition api_headers (key : option string) : list string :=
  "Content-Type: application/json"%string
  :: match key with
     | Some k => [substring 0 255 ("Authorization: Bearer " ++ k)%string]
     | None => []
     end.

(** [voice_detector_api_call] (lines 523-610): the request made, if one is,
    and the status returned. *)
Definition voice_detector_api_call (c : voice_detector_settings) (clock : Z)
    (t : api_transport) (id : string) (voice_detected energy_level : Z)
    (on_leg : option string) : option api_request * switch_status_t :=
  match cfg_api_url c with
  | None => (None, SWITCH_STATUS_SUCCESS)
  | Some url =>
    if curl_ready t then
      (Some {| req_url := url;
               req_json := api_json clock id voice_detected energy_level on_leg;
               req_headers := api_headers (cfg_api_key c);
               req_timeout := 10 |},
       if perform_ok t then SWITCH_STATUS_SUCCESS else SWITCH_STATUS_FALSE)
    else (None, SWITCH_STATUS_FALSE)
  end.

(** A notification recorded by the callback, carried out. *)
Definition dispatch (c : voice_detector_settings) (clock : Z) (t : api_transport)
    (a : action) : option api_request * switch_status_t :=
  match a with
  | ApiCall id event value on_leg =>
    voice_detector_api_call c clock t id event value (Some on_leg)
  | Directive _ => (None, SWITCH_STATUS_SUCCESS)
  end.

(* ------------------------------------------------------------------ *)
(** ** Session start and teardown *)

(** [voice_detector_session_cleanup] (lines 613-641) on a session that
    exists: a running recording is stopped, the file name is freed and
    cleared.  (Removing the media bug and destroying the pool act on the
    two fields the model does not represent.) *)
Definition voice_detector_session_cleanup (e : env) (s : voice_detector_session_t)
    : voice_detector_session_t * list action :=
  let '(s, out) :=
    if is_recording s =? 0 then (s, [])
    else let '(s', o, _) := voice_detector_stop_recording e s in (s', o) in
  (set_recording_file None s, out).

(** The media bug flags, one field per flag bit. *)
Record switch_media_bug_flag_t : Type := mk_flags {
  SMBF_READ_STREAM : bool;
  SMBF_WRITE_STREAM : bool;
  SMBF_NO_PAUSE : bool
}.

(** The leg selection (lines 698-713): the flags the media bug is added
    with, and the leg the session keeps. *)
Definition select_leg (requested : string) : switch_media_bug_flag_t * string :=
  if strcasecmp_eq requested "a" then (mk_flags true false true, requested)
  else if strcasecmp_eq requested "b" then (mk_flags true true true, requested)
  else if strcasecmp_eq requested "both" then (mk_flags true true true, requested)
  else (mk_flags true false true, "a"%string).

(** The session table [globals->sessions], by uuid. *)
Definition session_table : Type := string -> option voice_detector_session_t.

Definition table_insert (id : string) (s : voice_detector_session_t)
    (t : session_table) : session_table :=
  fun k => if String.eqb k id then Some s else t k.

(** What [voice_detector_app_function] leaves behind: the session table,
    the flags it asked the media bug with (when it got that far), and its
    status. *)
Record app_result : Type := mk_app_result {
  app_table : session_table;
  app_flags : option switch_media_bug_flag_t;
  app_status : switch_status_t
}.

(** Lines 675-733 of [voice_detector_app_function]: the session data is
    filled in through the pointer [session_data], the runtime parameters
    are applied, the media bug is added with the flags of the leg, and the
    session is entered in the table.  [session_data] is [None] for the null
    pointer: the store of line 675 goes through it and traps.  [None] as a
    result is that trap, or one in the divisions of
    [voice_detector_apply_runtime_params]. *)
Definition app_monitor (c : voice_detector_settings) (t : session_table)
    (session_data : option voice_detector_session_t)
    (a : voice_detector_runtime_args) (sess : Z) (id : string)
    (bug_status : switch_status_t) : option app_result :=
  match session_data with
  | None => None
  | Some _ =>
    match voice_detector_new_session (geometry_of c) sess id (args_params a) with
    | None => None
    | Some s =>
      let '(flags, l) := select_leg (leg (runtime_params s)) in
      let s := set_runtime_params (set_leg l (runtime_params s)) s in
      if status_ok bug_status then
        Some (mk_app_result (table_insert id s t) (Some flags)
                SWITCH_STATUS_SUCCESS)
      else Some (mk_app_result t (Some flags) bug_status)
    end
  end.

(** [voice_detector_app_function] (lines 644-734).  [id] is the channel's
    uuid ([None]: none), [argv] the separated application data,
    [bug_status] the answer of [switch_core_media_bug_add].  The pointer
    [session_data] is initialised to [NULL] (line 648) and nothing is
    assigned to it before line 675. *)
Definition voice_detector_app_function (c : voice_detector_settings)
    (t : session_table) (sess : Z) (id : option string) (argv : list string)
    (bug_status : switch_status_t) : option app_result :=
  let session_data : option voice_detector_session_t := None in
  match id with
  | None => Some (mk_app_result t None SWITCH_STATUS_FALSE)
  | Some id =>
    match t id with
    | Some _ => Some (mk_app_result t None SWITCH_STATUS_SUCCESS)
    | None =>
      let a := voice_detector_parse_runtime_params argv in
      app_monitor c t session_data a sess id bug_status
    end
  end.

(* ------------------------------------------------------------------ *)
(** ** Vocabulary of the further properties *)

(** The two flags hold 0 or 1, and a recording that is marked as running
    has its record session and its file name, on a session that records
    automatically. *)
Definition recording_consistent (s : voice_detector_session_t) : Prop :=
  (voice_detected s = 0 \/ voice_detected s = 1)
  /\ (is_recording s = 0
      \/ (is_recording s = 1 /\ record_session s <> 0
          /\ recording_file s <> None
          /\ auto_record (runtime_params s) <> 0)).

(** The member of a JSON object under a key. *)
Fixpoint json_lookup (key : string) (j : list (string * json_value))
    : option json_value :=
  match j with
  | [] => None
  | (k, v) :: rest => if String.eqb k key then Some v else json_lookup key rest
  end.

(** The names [voice_detector_api_call] gives to events. *)
Definition event_type_names : list string :=
  ["voice_ended"; "voice_started"; "recording_started"; "recording_stopped";
   "word_detected"]%string.

(** The value of the last token of [argv] that reads [key=value], the key
    compared without regard to case. *)
Fixpoint last_value (key : string) (argv : list string) : option string :=
  match argv with
  | [] => None
  | arg :: rest =>
    match last_value key rest with
    | Some v => Some v
    | None =>
      match split_equals arg with
      | Some (k, v) => if strcasecmp_eq k key then Some v else None
      | None => None
      end
    end
  end.

(** The value of the last [param] element named [name], the name compared
    without regard to case. *)
Fixpoint last_config_value (name : string) (params : list (string * string))
    : option string :=
  match params with
  | [] => None
  | (var, val) :: rest =>
    match last_config_value name rest with
    | Some v => Some v
    | None => if strcasecmp_eq var name then Some val else None
    end
  end.

(** The sixteen keys [voice_detector_parse_runtime_params] knows. *)
Definition runtime_keys : list string :=
  ["silence_ms"; "threshold"; "hits"; "timeout"; "interrupt_ms";
   "energy_threshold"; "total_analysis_time"; "min_word_length";
   "maximum_word_length"; "between_words_silence"; "max_silence";
   "auto_record"; "recording_format"; "recording_path"; "recording_prefix";
   "leg"]%string.

(** A token the parser has no use for: no ['='] in it, or a key that is
    none of the sixteen. *)
Definition token_ignored (arg : string) : bool :=
  match split_equals arg with
  | None => true
  | Some (k, _) => negb (existsb (strcasecmp_eq k) runtime_keys)
  end.

(** A leg the module knows: a, b or both, in any case. *)
Definition leg_valid (l : string) : bool :=
  strcasecmp_eq l "a" || strcasecmp_eq l "b" || strcasecmp_eq l "both".

(** A notification of session [s]: it names the session and its leg, and
    its event is one of the five the module knows. *)
Definition notification_of (s : voice_detector_session_t) (a : action) : Prop :=
  match a with
  | Directive _ => True
  | ApiCall id event _ on_leg =>
    id = uuid s /\ on_leg = leg (runtime_params s) /\ 0 <= event <= 4
  end.

(** The frames of a run that pass the guard of session [s]. *)
Definition accepted_frames (s : voice_detector_session_t)
    (ins : list (env * frame)) : nat :=
  length (filter (fun i => frame_accepted s (snd i)) ins).

(** A configuration as it is before [voice_detector_parse_config] has
    run: no strings, every integer zero. *)
Definition blank_settings : voice_detector_settings :=
  mk_settings None None None None 0 0 0 0 0 0 0 0.

(* ------------------------------------------------------------------ *)
(** ** The energy score *)










(** The number a float stands for (0 for an infinity or a NaN), and
    whether it is a number. *)
Definition F2R (m e : Z) : R := (IZR m * powerRZ 2 e)%R.
















(* ------------------------------------------------------------------ *)
(** ** Proof tactics *)

Arguments to_int : simpl never.
Arguments to_int64 : simpl never.

(** Destruct the scrutinee of the first conditional left in the goal. *)
Ltac break_if :=
  match goal with
  | |- context [if ?c then _ else _] => destruct c eqn:?
  | |- context [match ?c with Some _ => _ | None => _ end] => destruct c eqn:?
  end.

(** The same, restricted to scrutinees that hold no conditional themselves. *)
Ltac break_atom :=
  match goal with
  | |- context [rec_filename ?e] => destruct (rec_filename e) eqn:?
  | |- context [if ?c then _ else _] =>
    lazymatch c with
    | context [if _ then _ else _] => fail
    | _ => destruct c eqn:?
    end
  end.

Ltac unfold_ops :=
  unfold voice_detector_callback, debounced_api_call,
    voice_detector_start_recording, voice_detector_stop_recording, api_call.

Ltac zbool :=
  repeat match goal with
  | H : (_ =? _) = true |- _ => apply Z.eqb_eq in H
  | H : (_ =? _) = false |- _ => apply Z.eqb_neq in H
  | H : (_ <? _) = true |- _ => apply Z.ltb_lt in H
  | H : (_ <? _) = false |- _ => apply Z.ltb_ge in H
  | H : (_ <=? _) = true |- _ => apply Z.leb_le in H
  | H : (_ <=? _) = false |- _ => apply Z.leb_gt in H
  end.


(** Split the callback into its paths, the session and the configuration
    being records of variables. *)
Ltac callback_paths :=
  unfold_ops; unfold frame_accepted, frame_ms, c_div, debounce_elapsed; cbn;
  match goal with
  | |- context [to_int (?db * 1000) <? to_int64 (now ?e - ?t)] =>
    destruct (to_int (db * 1000) <? to_int64 (now e - t)) eqn:?
  end;
  cbn; repeat (break_atom; cbn).

(** Evaluate the comparisons between two literal names. *)
Ltac eval_names :=
  repeat match goal with
  | |- context [strcasecmp_eq ?a ?b] =>
    let r := eval vm_compute in (strcasecmp_eq a b) in
    lazymatch r with
    | true => change (strcasecmp_eq a b) with true
    | false => change (strcasecmp_eq a b) with false
    end
  end.

(** Every host of a frame list hands back a record session. *)
Ltac handles_present :=
  repeat (apply Forall_cons; [discriminate|]); apply Forall_nil.

(* ------------------------------------------------------------------ *)
(** ** Facts about machine integers *)

Lemma to_int_id (z : Z) : in_int z -> to_int z = z.
Proof.
  unfold in_int, int_min, int_max, to_int; intros H.
  rewrite Z.mod_small by lia. lia.
Qed.

Lemma to_int_range (z : Z) : in_int (to_int z).
Proof.
  unfold in_int, int_min, int_max, to_int.
  pose proof (Z.mod_pos_bound (z + 2147483648) 4294967296 ltac:(lia)). lia.
Qed.

Lemma to_int_add_l (a b : Z) : to_int (to_int a + b) = to_int (a + b).
Proof.
  unfold to_int. f_equal.
  replace ((a + 2147483648) mod 4294967296 - 2147483648 + b + 2147483648)
    with ((a + 2147483648) mod 4294967296 + b) by lia.
  rewrite Zplus_mod_idemp_l. f_equal. lia.
Qed.


(* ------------------------------------------------------------------ *)
(** ** Voice onset *)

(** An above-threshold frame in the idle state that does not reach [hits]
    only counts. *)
Lemma callback_idle_hit_below (g : voice_detector_global_t)
    (s : voice_detector_session_t) (e : env) (f : frame) :
  frame_accepted s f = true -> above_threshold f = true ->
  voice_detected s = 0 ->
  to_int (consecutive_hits s + 1) < hits (runtime_params s) ->
  exists s' out,
    voice_detector_callback g s e f = Some (s', out)
    /\ voice_detected s' = 0
    /\ consecutive_hits s' = to_int (consecutive_hits s + 1)
    /\ session s' = session s
    /\ runtime_params s' = runtime_params s.
Proof.
  intros Hacc Habove Hvd Hlt.
  unfold_ops. rewrite Hacc, Habove. cbn. rewrite Hvd. cbn.
  destruct (debounce_elapsed _ _ _); cbn;
    (destruct (Z.leb_spec (hits (runtime_params s)) (to_int (consecutive_hits s + 1)));
     [lia|]); eauto 10.
Qed.

(** An above-threshold frame in the idle state that reaches [hits] confirms
    the voice. *)
Lemma callback_idle_hit_confirm (g : voice_detector_global_t)
    (s : voice_detector_session_t) (e : env) (f : frame) :
  frame_accepted s f = true -> above_threshold f = true ->
  voice_detected s = 0 ->
  hits (runtime_params s) <= to_int (consecutive_hits s + 1) ->
  exists s' out,
    voice_detector_callback g s e f = Some (s', out)
    /\ voice_detected s' = 1
    /\ silence_frames s' = 0
    /\ word_start_time s' = to_int (now e)
    /\ current_word_length s' = 0
    /\ In (Directive StartRecording) out.
Proof.
  intros Hacc Habove Hvd Hle.
  unfold_ops. rewrite Hacc, Habove. cbn. rewrite Hvd. cbn.
  destruct (debounce_elapsed _ _ _); cbn;
    (destruct (Z.leb_spec (hits (runtime_params s)) (to_int (consecutive_hits s + 1)));
     [|lia]);
    repeat (break_if; cbn);
    do 2 eexists; (split; [reflexivity|]); cbn;
    repeat split; auto using in_or_app, in_eq.
Qed.

Lemma frame_valid_accepted (s : voice_detector_session_t) (f : frame) :
  session s <> 0 -> frame_valid f = true -> frame_accepted s f = true.
Proof.
  intros Hs Hf. unfold frame_accepted, frame_valid in *.
  apply Z.eqb_neq in Hs. rewrite Hs. cbn. exact Hf.
Qed.

Lemma loud_inv (s : voice_detector_session_t) (e : env) (f : frame) :
  session s <> 0 -> loud (e, f) = true ->
  frame_accepted s f = true /\ above_threshold f = true.
Proof.
  unfold loud; cbn; intros Hs H. apply andb_prop in H as [Hv Ha].
  auto using frame_valid_accepted.
Qed.

Lemma quiet_inv (s : voice_detector_session_t) (e : env) (f : frame) :
  session s <> 0 -> quiet (e, f) = true ->
  frame_accepted s f = true /\ above_threshold f = false.
Proof.
  unfold quiet; cbn; intros Hs H. apply andb_prop in H as [Hv Ha].
  apply negb_true_iff in Ha. auto using frame_valid_accepted.
Qed.

(** A run of above-threshold frames shorter than [hits] keeps the session
    unconfirmed and counts the frames. *)
Lemma run_idle_hits (g : voice_detector_global_t) (ins : list (env * frame)) :
  forall s : voice_detector_session_t,
    session s <> 0 -> voice_detected s = 0 -> 0 <= consecutive_hits s ->
    consecutive_hits s + Z.of_nat (length ins) < hits (runtime_params s) ->
    hits (runtime_params s) <= int_max ->
    Forall (fun i => loud i = true) ins ->
    exists s1 tr,
      run g s ins = Some (s1, tr)
      /\ voice_detected s1 = 0
      /\ consecutive_hits s1 = consecutive_hits s + Z.of_nat (length ins)
      /\ session s1 = session s
      /\ runtime_params s1 = runtime_params s.
Proof.
  induction ins as [|[e f] ins IH]; intros s Hs Hvd Hch Hlt Hmax Hall.
  - cbn. exists s, []. repeat split; auto. lia.
  - inversion Hall as [|? ? Hl Hall']; subst.
    destruct (loud_inv s e f Hs Hl) as [Hacc Habove].
    cbn [length] in Hlt. rewrite Nat2Z.inj_succ in Hlt.
    assert (Hid : to_int (consecutive_hits s + 1) = consecutive_hits s + 1)
      by (apply to_int_id; unfold in_int, int_min, int_max in *; lia).
    destruct (callback_idle_hit_below g s e f Hacc Habove Hvd)
      as (s' & out & Hcb & Hvd' & Hch' & Hs' & Hp'); [lia|].
    destruct (IH s') as (s1 & tr & Hrun & Hvd1 & Hch1 & Hs1 & Hp1);
      try rewrite Hp'; try rewrite Hch'; try rewrite Hs'; auto; try lia.
    exists s1, (map (pair (now e)) out ++ tr).
    cbn [run]. rewrite Hcb, Hrun.
    repeat split; auto; try congruence.
    rewrite Hch1, Hch', Hid. cbn [length]. lia.
Qed.

(** C1.  From the idle state ([voice_detected = 0], [consecutive_hits = 0]),
    [hits] consecutive accepted frames above the energy threshold
    ([pre] followed by [(e, f)], [hits] frames in all) confirm the voice
    exactly on the last of them: after each of the first [0 .. hits-1] frames
    [voice_detected] is still 0, and the [hits]-th frame sets
    [voice_detected = 1], resets [silence_frames] to 0, stores the current
    time in [word_start_time] (an [int] field, so the clock value narrowed to
    [int]), sets [current_word_length] to 0 and calls
    [voice_detector_start_recording]. *)
Theorem hits_consecutive_frames_confirm_voice
    (g : voice_detector_global_t) (s : voice_detector_session_t)
    (pre : list (env * frame)) (e : env) (f : frame) :
  session s <> 0 ->
  voice_detected s = 0 -> consecutive_hits s = 0 ->
  1 <= hits (runtime_params s) <= int_max ->
  Z.of_nat (length (pre ++ [(e, f)])) = hits (runtime_params s) ->
  Forall (fun i => loud i = true) (pre ++ [(e, f)]) ->
  (forall k, (k <= length pre)%nat ->
     exists sk trk,
       run g s (firstn k pre) = Some (sk, trk)
       /\ voice_detected sk = 0 /\ consecutive_hits sk = Z.of_nat k)
  /\ exists s1 tr1 s2 out,
       run g s pre = Some (s1, tr1)
       /\ voice_detector_callback g s1 e f = Some (s2, out)
       /\ voice_detected s2 = 1
       /\ silence_frames s2 = 0
       /\ word_start_time s2 = to_int (now e)
       /\ current_word_length s2 = 0
       /\ In (Directive StartRecording) out.
Proof.
  intros Hs Hvd Hch Hhits Hlen Hall.
  rewrite length_app in Hlen. cbn [length] in Hlen.
  apply Forall_app in Hall as [Hpre Hlast].
  assert (Hprefix : forall k, (k <= length pre)%nat ->
            exists sk trk,
              run g s (firstn k pre) = Some (sk, trk)
              /\ voice_detected sk = 0
              /\ consecutive_hits sk = Z.of_nat k
              /\ session sk = session s
              /\ runtime_params sk = runtime_params s).
  { intros k Hk.
    destruct (run_idle_hits g (firstn k pre) s) as (sk & trk & Hrun & H1 & H2 & H3 & H4);
      auto; try lia.
    - rewrite length_firstn, Hch. lia.
    - rewrite <- (firstn_skipn k pre) in Hpre.
      apply Forall_app in Hpre. tauto.
    - exists sk, trk. repeat split; auto.
      rewrite H2, Hch, length_firstn. lia. }
  split.
  - intros k Hk. destruct (Hprefix k Hk) as (sk & trk & ? & ? & ? & _).
    eauto.
  - destruct (Hprefix (length pre) (le_n _))
      as (s1 & tr1 & Hrun & Hvd1 & Hch1 & Hs1 & Hp1).
    rewrite firstn_all in Hrun.
    inversion Hlast as [|? ? Hl _]; subst.
    assert (Hs1' : session s1 <> 0) by congruence.
    destruct (loud_inv s1 e f Hs1' Hl) as [Hacc Habove].
    destruct (callback_idle_hit_confirm g s1 e f Hacc Habove Hvd1)
      as (s2 & out & Hcb & ?).
    + rewrite Hp1, Hch1, to_int_id; [lia|].
      unfold in_int, int_min, int_max in *; lia.
    + exists s1, tr1, s2, out. auto.
Qed.

Example session0_is_new_session :
  voice_detector_new_session default_globals 1 "call-1" default_runtime_params
  = Some session0.
Proof. reflexivity. Qed.

Example default_frame_ms : frame_ms default_globals = Some 20.
Proof. reflexivity. Qed.

(** C1, on the default session: two frames above the threshold. *)
Lemma hits_consecutive_frames_confirm_voice_witness :
  (forall k, (k <= 1)%nat ->
     exists sk trk,
       run default_globals session0 (firstn k [(env_at t0, loud_frame)])
         = Some (sk, trk)
       /\ voice_detected sk = 0 /\ consecutive_hits sk = Z.of_nat k)
  /\ exists s1 tr1 s2 out,
       run default_globals session0 [(env_at t0, loud_frame)] = Some (s1, tr1)
       /\ voice_detector_callback default_globals s1 (env_at (t0 + tick)) loud_frame
          = Some (s2, out)
       /\ voice_detected s2 = 1
       /\ silence_frames s2 = 0
       /\ word_start_time s2 = to_int (t0 + tick)
       /\ current_word_length s2 = 0
       /\ In (Directive StartRecording) out.
Proof.
  apply (hits_consecutive_frames_confirm_voice default_globals session0
           [(env_at t0, loud_frame)] (env_at (t0 + tick)) loud_frame).
  - discriminate.
  - reflexivity.
  - reflexivity.
  - cbn; unfold int_max; lia.
  - reflexivity.
  - repeat constructor.
Defined.

(* ------------------------------------------------------------------ *)
(** ** Below-threshold frames *)

(** A below-threshold frame in the idle state only counts the frame. *)
Lemma callback_idle_quiet (g : voice_detector_global_t)
    (s : voice_detector_session_t) (e : env) (f : frame) :
  frame_accepted s f = true -> above_threshold f = false ->
  voice_detected s = 0 ->
  voice_detector_callback g s e f
  = Some (set_total_frames (to_int (total_frames s + 1)) s, []).
Proof.
  intros Hacc Habove Hvd.
  unfold voice_detector_callback. rewrite Hacc, Habove. cbn.
  rewrite Hvd. reflexivity.
Qed.

Lemma run_idle_quiet (g : voice_detector_global_t) (ins : list (env * frame)) :
  forall s : voice_detector_session_t,
    session s <> 0 -> voice_detected s = 0 ->
    Forall (fun i => quiet i = true) ins ->
    exists s1,
      run g s ins = Some (s1, [])
      /\ voice_detected s1 = 0
      /\ consecutive_hits s1 = consecutive_hits s.
Proof.
  induction ins as [|[e f] ins IH]; intros s Hs Hvd Hall.
  - exists s. auto.
  - inversion Hall as [|? ? Hq Hall']; subst.
    destruct (quiet_inv s e f Hs Hq) as [Hacc Habove].
    destruct (IH (set_total_frames (to_int (total_frames s + 1)) s))
      as (s1 & Hrun & Hvd1 & Hch1); auto.
    exists s1. cbn [run].
    rewrite (callback_idle_quiet g s e f Hacc Habove Hvd), Hrun. auto.
Qed.

(** C2 (the code at the failing input).  With [hits = 2] on the default
    session: one frame above the threshold, one below, one above.  The
    below-threshold frame leaves [consecutive_hits] at 1, and the third frame
    confirms the voice although no two above-threshold frames were
    consecutive. *)
Lemma idle_quiet_frame_keeps_consecutive_hits :
  exists s1 tr1 s2 tr2 s3 tr3,
    run default_globals session0 [(env_at t0, loud_frame)] = Some (s1, tr1)
    /\ voice_detected s1 = 0 /\ consecutive_hits s1 = 1
    /\ run default_globals session0
         [(env_at t0, loud_frame); (env_at (t0 + tick), quiet_frame)]
       = Some (s2, tr2)
    /\ voice_detected s2 = 0 /\ consecutive_hits s2 = 1
    /\ run default_globals session0
         [(env_at t0, loud_frame); (env_at (t0 + tick), quiet_frame);
          (env_at (t0 + 2 * tick), loud_frame)]
       = Some (s3, tr3)
    /\ voice_detected s3 = 1.
Proof.
  do 6 eexists.
  split; [vm_compute; reflexivity|].
  split; [reflexivity|]. split; [reflexivity|].
  split; [vm_compute; reflexivity|].
  split; [reflexivity|]. split; [reflexivity|].
  split; [vm_compute; reflexivity|].
  reflexivity.
Qed.

Lemma silence_duration_after_step (s s' : voice_detector_session_t) (d : Z)
    (n : nat) :
  silence_frames s' = to_int (silence_frames s + 1) ->
  silence_duration_after s' d n = silence_duration_after s d (S n).
Proof.
  intros H. unfold silence_duration_after.
  rewrite H, to_int_add_l, Nat2Z.inj_succ. do 3 f_equal. lia.
Qed.

(** A below-threshold frame while the voice is on, silence limit exceeded:
    the voice ends, recording is told to stop, and the voice-end
    notification goes out if the debounce window is open. *)
Lemma callback_voiced_quiet_end (g : voice_detector_global_t)
    (s : voice_detector_session_t) (e : env) (f : frame) (d : Z) :
  frame_ms g = Some d ->
  frame_accepted s f = true -> above_threshold f = false ->
  voice_detected s <> 0 ->
  max_silence (runtime_params s) < silence_duration_after s d 1 ->
  exists s' out,
    voice_detector_callback g s e f = Some (s', out)
    /\ voice_detected s' = 0
    /\ In (Directive StopRecording) out
    /\ count_event VOICE_DETECTOR_EVENT_VOICE_END out
       = (if debounce_elapsed g s e then 1 else 0)%nat
    /\ no_event VOICE_DETECTOR_EVENT_VOICE_START out
    /\ no_event VOICE_DETECTOR_EVENT_WORD_DETECTED out
    /\ session s' = session s
    /\ runtime_params s' = runtime_params s
    /\ current_word_length s' = current_word_length s.
Proof.
  intros Hd Hacc Habove Hvd Hmax.
  unfold silence_duration_after in Hmax. apply Z.ltb_lt in Hmax.
  apply Z.eqb_neq in Hvd.
  unfold_ops. rewrite Hacc, Habove. cbn. rewrite Hvd, Hd. cbn.
  change (Z.of_nat 1) with 1 in Hmax. rewrite Hmax.
  unfold debounce_elapsed, no_event, count_event.
  repeat (break_if; cbn); do 2 eexists; (split; [reflexivity|]); cbn;
    repeat split; auto.
Qed.

(** A below-threshold frame while the voice is on, silence limit not
    exceeded: the voice stays on; at most a word boundary is reported. *)
Lemma callback_voiced_quiet_within (g : voice_detector_global_t)
    (s : voice_detector_session_t) (e : env) (f : frame) (d : Z) :
  frame_ms g = Some d ->
  frame_accepted s f = true -> above_threshold f = false ->
  voice_detected s <> 0 ->
  silence_duration_after s d 1 <= max_silence (runtime_params s) ->
  exists s' out,
    voice_detector_callback g s e f = Some (s', out)
    /\ voice_detected s' = voice_detected s
    /\ silence_frames s' = to_int (silence_frames s + 1)
    /\ last_api_call_time s' = last_api_call_time s
    /\ session s' = session s
    /\ runtime_params s' = runtime_params s
    /\ no_event VOICE_DETECTOR_EVENT_VOICE_END out
    /\ no_event VOICE_DETECTOR_EVENT_VOICE_START out
    /\ no_directive StopRecording out
    /\ (if (between_words_silence (runtime_params s) <? silence_duration_after s d 1)
           && (min_word_length (runtime_params s) <=? current_word_length s)
        then out = [api_call s VOICE_DETECTOR_EVENT_WORD_DETECTED
                      (Z.quot (to_int (to_int (now e) - word_start_time s)) 1000000)]
             /\ count_event VOICE_DETECTOR_EVENT_WORD_DETECTED out = 1%nat
             /\ word_start_time s' = to_int (now e)
             /\ current_word_length s' = 0
        else out = []
             /\ word_start_time s' = word_start_time s
             /\ current_word_length s' = current_word_length s).
Proof.
  intros Hd Hacc Habove Hvd Hmax.
  unfold silence_duration_after in *. apply Z.ltb_ge in Hmax.
  apply Z.eqb_neq in Hvd.
  unfold_ops. rewrite Hacc, Habove. cbn. rewrite Hvd, Hd. cbn.
  change (Z.of_nat 1) with 1 in *. rewrite Hmax.
  unfold no_event, no_directive, count_event.
  repeat (break_if; cbn); do 2 eexists; (split; [reflexivity|]); cbn;
    repeat split; auto.
Qed.

(* ------------------------------------------------------------------ *)
(** ** Runs of frames *)


Lemma untimed_stamp (t : Z) (out : list action) :
  map snd (map (pair t) out) = out.
Proof. rewrite map_map. cbn. apply map_id. Qed.

Lemma count_event_app (ev : Z) (a b : list action) :
  count_event ev (a ++ b) = (count_event ev a + count_event ev b)%nat.
Proof. unfold count_event. now rewrite filter_app, length_app. Qed.

Lemma no_event_app (ev : Z) (a b : list action) :
  no_event ev a -> no_event ev b -> no_event ev (a ++ b).
Proof. unfold no_event. rewrite count_event_app. lia. Qed.




Example short_silence_session_is_new_session :
  voice_detector_new_session default_globals 1 "call-1" short_silence_params
  = Some short_silence_session.
Proof. reflexivity. Qed.

Example short_silence_voiced_reached :
  run default_globals short_silence_session (frames_from t0 2 loud_frame)
  = Some (short_silence_voiced,
          [(t0, ApiCall "call-1" VOICE_DETECTOR_EVENT_VOICE_START 200 "a");
           (t0 + tick, Directive StartRecording);
           (t0 + tick, ApiCall "call-1" VOICE_DETECTOR_EVENT_RECORDING_START 0 "a")]).
Proof. vm_compute. reflexivity. Qed.



(* ------------------------------------------------------------------ *)
(** ** Word boundaries *)

(** Any accepted below-threshold frame: at most one word notification, and
    one only if the word was long enough, after which the word length
    restarts at 0; otherwise the word length is left alone. *)
Lemma quiet_step_words (g : voice_detector_global_t) (d : Z)
    (s : voice_detector_session_t) (e : env) (f : frame) :
  frame_ms g = Some d -> session s <> 0 -> quiet (e, f) = true ->
  exists s' out,
    voice_detector_callback g s e f = Some (s', out)
    /\ session s' = session s
    /\ runtime_params s' = runtime_params s
    /\ ((no_event VOICE_DETECTOR_EVENT_WORD_DETECTED out
         /\ current_word_length s' = current_word_length s)
        \/ (count_event VOICE_DETECTOR_EVENT_WORD_DETECTED out = 1%nat
            /\ current_word_length s' = 0
            /\ min_word_length (runtime_params s) <= current_word_length s)).
Proof.
  intros Hd Hs Hq.
  destruct (quiet_inv s e f Hs Hq) as [Hacc Habove].
  destruct (Z.eq_dec (voice_detected s) 0) as [Hvd|Hvd].
  - rewrite (callback_idle_quiet g s e f Hacc Habove Hvd).
    do 2 eexists. split; [reflexivity|]. cbn. repeat split. left. now split.
  - destruct (Z_lt_le_dec (max_silence (runtime_params s))
                          (silence_duration_after s d 1)) as [Hover|Hwithin].
    + destruct (callback_voiced_quiet_end g s e f d Hd Hacc Habove Hvd Hover)
        as (s' & out & Hcb & _ & _ & _ & _ & Hw & Hs' & Hp' & Hcwl).
      exists s', out. repeat split; auto.
    + destruct (callback_voiced_quiet_within g s e f d Hd Hacc Habove Hvd Hwithin)
        as (s' & out & Hcb & _ & _ & _ & Hs' & Hp' & _ & _ & _ & Hword).
      exists s', out. repeat split; auto.
      destruct (between_words_silence (runtime_params s) <? silence_duration_after s d 1);
        cbn in Hword.
      * destruct (Z.leb_spec (min_word_length (runtime_params s))
                             (current_word_length s)).
        -- right. tauto.
        -- left. destruct Hword as (-> & _ & ?). now split.
      * left. destruct Hword as (-> & _ & ?). now split.
Qed.

(** Below-threshold frames after the word length has dropped under
    [min_word_length] report no word. *)
Lemma run_quiet_no_word (g : voice_detector_global_t) (d : Z)
    (ins : list (env * frame)) :
  forall s : voice_detector_session_t,
    frame_ms g = Some d -> session s <> 0 ->
    current_word_length s < min_word_length (runtime_params s) ->
    Forall (fun i => quiet i = true) ins ->
    exists s' tr,
      run g s ins = Some (s', tr)
      /\ no_event VOICE_DETECTOR_EVENT_WORD_DETECTED (map snd tr).
Proof.
  induction ins as [|[e f] ins IH]; intros s Hd Hs Hshort Hall.
  - exists s, []. now split.
  - inversion Hall as [|? ? Hq Hall']; subst.
    destruct (quiet_step_words g d s e f Hd Hs Hq)
      as (s1 & out & Hcb & Hs1 & Hp1 & [[Hnone Hcwl]|(_ & _ & Hlong)]); [|lia].
    destruct (IH s1) as (s' & tr & Hrun & Hno); auto; try congruence.
    exists s', (map (pair (now e)) out ++ tr). cbn [run].
    rewrite Hcb, Hrun. split; [reflexivity|].
    rewrite map_app, untimed_stamp. now apply no_event_app.
Qed.

(** With [min_word_length >= 1], a run of below-threshold frames reports at
    most one word. *)
Lemma run_quiet_word_once (g : voice_detector_global_t) (d : Z)
    (ins : list (env * frame)) :
  forall s : voice_detector_session_t,
    frame_ms g = Some d -> session s <> 0 ->
    1 <= min_word_length (runtime_params s) ->
    Forall (fun i => quiet i = true) ins ->
    exists s' tr,
      run g s ins = Some (s', tr)
      /\ (count_event VOICE_DETECTOR_EVENT_WORD_DETECTED (map snd tr) <= 1)%nat.
Proof.
  induction ins as [|[e f] ins IH]; intros s Hd Hs Hmin Hall.
  - exists s, []. split; [reflexivity|]. cbn. lia.
  - inversion Hall as [|? ? Hq Hall']; subst.
    destruct (quiet_step_words g d s e f Hd Hs Hq)
      as (s1 & out & Hcb & Hs1 & Hp1 & [[Hnone Hcwl]|(Hone & Hzero & _)]).
    + destruct (IH s1) as (s' & tr & Hrun & Hle); auto; try congruence.
      exists s', (map (pair (now e)) out ++ tr). cbn [run].
      rewrite Hcb, Hrun. split; [reflexivity|].
      rewrite map_app, untimed_stamp, count_event_app.
      unfold no_event in Hnone. lia.
    + destruct (run_quiet_no_word g d ins s1) as (s' & tr & Hrun & Hno);
        auto; try congruence.
      { rewrite Hp1, Hzero. lia. }
      exists s', (map (pair (now e)) out ++ tr). cbn [run].
      rewrite Hcb, Hrun. split; [reflexivity|].
      rewrite map_app, untimed_stamp, count_event_app.
      unfold no_event in Hno. lia.
Qed.

(** A run of below-threshold frames on which the silence duration never
    exceeds [between_words_silence] reports no word. *)
Lemma run_quiet_short_gap (g : voice_detector_global_t) (d : Z)
    (ins : list (env * frame)) :
  forall s : voice_detector_session_t,
    frame_ms g = Some d -> session s <> 0 ->
    Forall (fun i => quiet i = true) ins ->
    (forall n, (1 <= n <= length ins)%nat ->
       silence_duration_after s d n <= between_words_silence (runtime_params s)) ->
    exists s' tr,
      run g s ins = Some (s', tr)
      /\ no_event VOICE_DETECTOR_EVENT_WORD_DETECTED (map snd tr).
Proof.
  induction ins as [|[e f] ins IH]; intros s Hd Hs Hall Hshort.
  - exists s, []. now split.
  - inversion Hall as [|? ? Hq Hall']; subst.
    destruct (quiet_inv s e f Hs Hq) as [Hacc Habove].
    destruct (Z.eq_dec (voice_detected s) 0) as [Hvd|Hvd].
    { destruct (run_idle_quiet g ((e, f) :: ins) s Hs Hvd Hall) as (s' & Hrun & _).
      exists s', []. now split. }
    destruct (Z_lt_le_dec (max_silence (runtime_params s))
                          (silence_duration_after s d 1)) as [Hover|Hwithin].
    + destruct (callback_voiced_quiet_end g s e f d Hd Hacc Habove Hvd Hover)
        as (s1 & out & Hcb & Hvd1 & _ & _ & _ & Hw & Hs1 & _).
      assert (Hs1' : session s1 <> 0) by congruence.
      destruct (run_idle_quiet g ins s1 Hs1' Hvd1 Hall') as (s' & Hrun & _).
      exists s', (map (pair (now e)) out ++ []). cbn [run].
      rewrite Hcb, Hrun. split; [reflexivity|].
      now rewrite app_nil_r, untimed_stamp.
    + destruct (callback_voiced_quiet_within g s e f d Hd Hacc Habove Hvd Hwithin)
        as (s1 & out & Hcb & _ & Hsf1 & _ & Hs1 & Hp1 & _ & _ & _ & Hword).
      assert (Hgap : silence_duration_after s d 1
                     <= between_words_silence (runtime_params s))
        by (apply Hshort; cbn [length]; lia).
      apply Z.ltb_ge in Hgap. rewrite Hgap in Hword. cbn in Hword.
      destruct Hword as (-> & _ & _).
      destruct (IH s1) as (s' & tr & Hrun & Hno); auto; try congruence.
      { intros n Hn. rewrite Hp1, (silence_duration_after_step s s1 d n Hsf1).
        apply Hshort. cbn [length]. lia. }
      exists s', tr. cbn [run]. rewrite Hcb, Hrun. now split.
Qed.

(** X26.  The word boundary, in terms of the silence count the callback
    keeps.  On the geometry [g] with [d] milliseconds per frame:
    - while the voice is on, an accepted below-threshold frame whose silence
      duration exceeds [between_words_silence] without exceeding
      [max_silence] dispatches the word notification if and only if
      [current_word_length >= min_word_length]; when it does, it carries
      [(now - word_start_time) / 1000000], [word_start_time] becomes the
      current time (narrowed to the [int] field) and [current_word_length]
      becomes 0; either way [voice_detected] is unchanged;
    - with [min_word_length >= 1], an uninterrupted run of accepted
      below-threshold frames dispatches the word notification at most once;
    - a run on which the silence duration never exceeds
      [between_words_silence] dispatches none.
    The silence duration is the one the callback computes:
    [silence_frames], incremented on this frame, times [d]; the count starts
    from what the session holds, which is every below-threshold frame since
    the voice was confirmed. *)
Theorem word_detected_on_silence_gap (g : voice_detector_global_t) (d : Z) :
  frame_ms g = Some d ->
  (forall (s : voice_detector_session_t) (e : env) (f : frame),
     session s <> 0 -> voice_detected s <> 0 -> quiet (e, f) = true ->
     between_words_silence (runtime_params s) < silence_duration_after s d 1
       <= max_silence (runtime_params s) ->
     exists s' out,
       voice_detector_callback g s e f = Some (s', out)
       /\ voice_detected s' = voice_detected s
       /\ (count_event VOICE_DETECTOR_EVENT_WORD_DETECTED out = 1%nat
           <-> min_word_length (runtime_params s) <= current_word_length s)
       /\ (min_word_length (runtime_params s) <= current_word_length s ->
           out = [api_call s VOICE_DETECTOR_EVENT_WORD_DETECTED
                    (Z.quot (to_int (to_int (now e) - word_start_time s)) 1000000)]
           /\ word_start_time s' = to_int (now e)
           /\ current_word_length s' = 0)
       /\ (current_word_length s < min_word_length (runtime_params s) ->
           out = [] /\ current_word_length s' = current_word_length s))
  /\ (forall (s : voice_detector_session_t) (ins : list (env * frame)),
        session s <> 0 -> voice_detected s <> 0 ->
        1 <= min_word_length (runtime_params s) ->
        Forall (fun i => quiet i = true) ins ->
        exists s' tr,
          run g s ins = Some (s', tr)
          /\ (count_event VOICE_DETECTOR_EVENT_WORD_DETECTED (map snd tr) <= 1)%nat)
  /\ (forall (s : voice_detector_session_t) (ins : list (env * frame)),
        session s <> 0 -> voice_detected s <> 0 ->
        Forall (fun i => quiet i = true) ins ->
        (forall n, (1 <= n <= length ins)%nat ->
           silence_duration_after s d n
             <= between_words_silence (runtime_params s)) ->
        exists s' tr,
          run g s ins = Some (s', tr)
          /\ count_event VOICE_DETECTOR_EVENT_WORD_DETECTED (map snd tr) = 0%nat).
Proof.
  intros Hd. split; [|split].
  - intros s e f Hs Hvd Hq [Hgap Hwithin].
    destruct (quiet_inv s e f Hs Hq) as [Hacc Habove].
    destruct (callback_voiced_quiet_within g s e f d Hd Hacc Habove Hvd Hwithin)
      as (s' & out & Hcb & Hvd' & _ & _ & _ & _ & _ & _ & _ & Hword).
    apply Z.ltb_lt in Hgap. rewrite Hgap in Hword. cbn in Hword.
    exists s', out. split; [exact Hcb|]. split; [exact Hvd'|].
    destruct (Z.leb_spec (min_word_length (runtime_params s))
                         (current_word_length s)) as [Hlong|Hshort].
    + destruct Hword as (Hout & Hone & Hwst & Hcwl).
      repeat split; auto; lia.
    + destruct Hword as (Hout & _ & Hcwl). subst out.
      repeat split; auto; try lia. cbn. discriminate.
  - intros s ins Hs _ Hmin Hall.
    exact (run_quiet_word_once g d ins s Hd Hs Hmin Hall).
  - intros s ins Hs _ Hall Hshort.
    exact (run_quiet_short_gap g d ins s Hd Hs Hall Hshort).
Qed.

Example voiced_session_reached :
  exists tr,
    run default_globals session0 (frames_from t0 10 loud_frame)
    = Some (voiced_session, tr)
    /\ voice_detected voiced_session = 1
    /\ current_word_length voiced_session = 160.
Proof. eexists. split; [vm_compute; reflexivity|]. split; reflexivity. Qed.

Example voiced_session_gap_reached :
  run default_globals voiced_session (frames_from (t0 + 10 * tick) 2 quiet_frame)
  = Some (voiced_session_gap, [])
  /\ silence_frames voiced_session_gap = 2.
Proof. split; [vm_compute; reflexivity|reflexivity]. Qed.

(** X26, on the default session: the third frame of silence after 160 ms of
    word reports the word; five frames of silence report one word; two
    frames of silence report none. *)
Lemma word_detected_on_silence_gap_witness :
  (exists s' out,
     voice_detector_callback default_globals voiced_session_gap
       (env_at (t0 + 12 * tick)) quiet_frame = Some (s', out)
     /\ voice_detected s' = voice_detected voiced_session_gap
     /\ (count_event VOICE_DETECTOR_EVENT_WORD_DETECTED out = 1%nat
         <-> min_word_length (runtime_params voiced_session_gap)
             <= current_word_length voiced_session_gap)
     /\ (min_word_length (runtime_params voiced_session_gap)
           <= current_word_length voiced_session_gap ->
         out = [api_call voiced_session_gap VOICE_DETECTOR_EVENT_WORD_DETECTED
                  (Z.quot (to_int (to_int (now (env_at (t0 + 12 * tick)))
                                   - word_start_time voiced_session_gap))
                          1000000)]
         /\ word_start_time s' = to_int (now (env_at (t0 + 12 * tick)))
         /\ current_word_length s' = 0)
     /\ (current_word_length voiced_session_gap
           < min_word_length (runtime_params voiced_session_gap) ->
         out = [] /\ current_word_length s' = current_word_length voiced_session_gap))
  /\ (exists s' tr,
        run default_globals voiced_session
          (frames_from (t0 + 10 * tick) 5 quiet_frame) = Some (s', tr)
        /\ (count_event VOICE_DETECTOR_EVENT_WORD_DETECTED (map snd tr) <= 1)%nat)
  /\ (exists s' tr,
        run default_globals voiced_session
          (frames_from (t0 + 10 * tick) 2 quiet_frame) = Some (s', tr)
        /\ count_event VOICE_DETECTOR_EVENT_WORD_DETECTED (map snd tr) = 0%nat).
Proof.
  pose proof (word_detected_on_silence_gap default_globals 20 eq_refl)
    as (Hstep & Honce & Hshort).
  split; [|split].
  - apply Hstep.
    + discriminate.
    + discriminate.
    + reflexivity.
    + vm_compute. split; [reflexivity|discriminate].
  - apply Honce.
    + discriminate.
    + discriminate.
    + vm_compute. discriminate.
    + repeat constructor.
  - apply Hshort.
    + discriminate.
    + discriminate.
    + repeat constructor.
    + intros n Hn. cbn [length frames_from] in Hn.
      assert (H : (n = 1 \/ n = 2)%nat) by lia.
      destruct H as [->| ->]; vm_compute; discriminate.
Defined.

(** C4 (the code at the failing input).  Default session and geometry
    (20 ms frames, [between_words_silence = 50]).  Ten frames above the
    threshold, two below, one above, one below.  The two-frame gap (40 ms)
    reports nothing; the voice resumes without [silence_frames] being
    reset; the last frame, a gap of one frame (20 ms), finds
    [silence_frames = 3], a silence duration of 60 ms, and reports a
    word. *)
Lemma word_detected_on_short_gap :
  exists s3 s4,
    run default_globals voiced_session_gap
      [(env_at (t0 + 12 * tick), loud_frame)] = Some (s3, [])
    /\ voice_detected s3 = 1
    /\ silence_frames s3 = 2
    /\ frame_ms default_globals = Some 20
    /\ between_words_silence (runtime_params s3) = 50
    /\ run default_globals s3 [(env_at (t0 + 13 * tick), quiet_frame)]
       = Some (s4, [(t0 + 13 * tick,
                     ApiCall "call-1" VOICE_DETECTOR_EVENT_WORD_DETECTED 0 "a")])
    /\ silence_frames s4 = 3
    /\ run default_globals session0
         (frames_from t0 10 loud_frame
          ++ frames_from (t0 + 10 * tick) 2 quiet_frame
          ++ frames_from (t0 + 12 * tick) 1 loud_frame
          ++ frames_from (t0 + 13 * tick) 1 quiet_frame)
       = Some (s4, confirm_trace
                   ++ [(t0 + 13 * tick,
                        ApiCall "call-1" VOICE_DETECTOR_EVENT_WORD_DETECTED 0 "a")]).
Proof.
  do 2 eexists.
  split; [vm_compute; reflexivity|].
  split; [reflexivity|]. split; [reflexivity|].
  split; [reflexivity|]. split; [reflexivity|].
  split; [vm_compute; reflexivity|].
  split; [reflexivity|].
  vm_compute. reflexivity.
Qed.

(* ------------------------------------------------------------------ *)
(** ** The word-too-long abort *)


Example long_word_session_reached :
  exists tr,
    run default_globals session0 (frames_from t0 177 loud_frame)
    = Some (long_word_session, tr)
    /\ voice_detected long_word_session = 1
    /\ current_word_length long_word_session = 3500.
Proof. eexists. split; [vm_compute; reflexivity|]. split; reflexivity. Qed.


Example long_word_abort_trace :
  exists s',
    voice_detector_callback default_globals long_word_session
      (env_at (t0 + 177 * tick)) loud_frame
    = Some (s',
            [Directive StopRecording;
             ApiCall "call-1" VOICE_DETECTOR_EVENT_RECORDING_STOP 3 "a"])
    /\ current_word_length s' = 3520.
Proof. eexists. split; [vm_compute; reflexivity|reflexivity]. Qed.

Example negative_limit_session_is_new_session :
  voice_detector_new_session default_globals 1 "call-1" negative_limit_params
  = Some negative_limit_session.
Proof. reflexivity. Qed.


(* ------------------------------------------------------------------ *)
(** ** Voice-start notifications within one run *)

Example slow_confirm_session_is_new_session :
  voice_detector_new_session default_globals 1 "call-1" slow_confirm_params
  = Some slow_confirm_session.
Proof. reflexivity. Qed.

(** C6 (the code at the failing input).  Default geometry (20 ms frames,
    debounce 500 ms), [hits = 30].  Twenty-seven consecutive frames above
    the threshold, all before confirmation: the first dispatches the
    voice-start notification, and so does the twenty-seventh, 520 ms later,
    in the same run. *)
Lemma voice_start_repeats_in_one_run :
  exists s,
    run default_globals slow_confirm_session (frames_from t0 27 loud_frame)
    = Some (s,
            [(t0, ApiCall "call-1" VOICE_DETECTOR_EVENT_VOICE_START 200 "a");
             (t0 + 26 * tick,
              ApiCall "call-1" VOICE_DETECTOR_EVENT_VOICE_START 200 "a")])
    /\ voice_detected s = 0
    /\ consecutive_hits s = 27.
Proof.
  eexists. split; [vm_compute; reflexivity|]. split; reflexivity.
Qed.

(** The same with a short debounce window ([debounce-ms = 10]) and
    [hits = 3]: the second frame of the run, 20 ms after the first,
    dispatches the voice-start notification again. *)
Example voice_start_on_second_frame :
  exists s,
    run {| frame_size := 160; sample_rate := 8000; debounce_ms := 10 |}
      (fresh_session
         {| silence_ms := 150; hits := 3; timeout := 2000; interrupt_ms := 50;
            total_analysis_time := 4000; min_word_length := 100;
            maximum_word_length := 3500; between_words_silence := 50;
            max_silence := 2000; auto_record := 1; recording_format := 0;
            leg := "a" |} 2 100)
      (frames_from t0 2 loud_frame)
    = Some (s,
            [(t0, ApiCall "call-1" VOICE_DETECTOR_EVENT_VOICE_START 200 "a");
             (t0 + tick,
              ApiCall "call-1" VOICE_DETECTOR_EVENT_VOICE_START 200 "a")])
    /\ voice_detected s = 0.
Proof.
  eexists. split; [vm_compute; reflexivity|reflexivity].
Qed.

(* ------------------------------------------------------------------ *)
(** ** Stopping a recording *)

(** C8 (as amended).  A session with [is_recording] set:
    - if it holds a record session, [voice_detector_stop_recording] stores
      [(now - recording_start_time) / 1000000] in [recording_duration]
      whatever the host's stop facility answers; when the facility succeeds
      it dispatches the recording-stopped notification carrying that
      duration and clears [record_session] and [is_recording]; when the
      facility fails it returns the failure, dispatches nothing and leaves
      [is_recording] and [record_session] as they were;
    - if it holds no record session, the operation does nothing. *)
Theorem stop_recording_outcomes (e : env) (s : voice_detector_session_t) :
  is_recording s <> 0 ->
  (record_session s <> 0 ->
   exists s' out st,
     voice_detector_stop_recording e s = (s', out, st)
     /\ recording_duration s'
        = Z.quot (to_int64 (rec_now e - recording_start_time s)) 1000000
     /\ (stop_result e = SWITCH_STATUS_SUCCESS ->
         st = SWITCH_STATUS_SUCCESS
         /\ is_recording s' = 0
         /\ record_session s' = 0
         /\ out = [api_call s VOICE_DETECTOR_EVENT_RECORDING_STOP
                     (to_int (recording_duration s'))])
     /\ (stop_result e <> SWITCH_STATUS_SUCCESS ->
         st = stop_result e
         /\ is_recording s' = is_recording s
         /\ record_session s' = record_session s
         /\ out = []))
  /\ (record_session s = 0 ->
      voice_detector_stop_recording e s = (s, [], SWITCH_STATUS_SUCCESS)).
Proof.
  intros Hrec. apply Z.eqb_neq in Hrec.
  unfold voice_detector_stop_recording, api_call. rewrite Hrec. cbn.
  split.
  - intros Hh. apply Z.eqb_neq in Hh. rewrite Hh.
    destruct (stop_result e) eqn:Hstop; cbn;
      do 3 eexists; (split; [reflexivity|]); cbn;
      repeat split; auto; try congruence; intros; congruence.
  - intros Hh. rewrite Hh. reflexivity.
Qed.

(** C8 (counterexample to the claim as stated).  The session is recording
    since [t0 + 20 ms] (record session 77).  Three seconds later the stop
    operation runs and the host's stop facility fails: the duration is
    stored, but [is_recording] stays 1 and the record session stays in
    place. *)
Lemma stop_failure_keeps_recording_state :
  is_recording short_silence_voiced = 1
  /\ record_session short_silence_voiced = 77
  /\ exists s',
       voice_detector_stop_recording (env_stop_fails (t0 + tick + 3000000))
         short_silence_voiced
       = (s', [], SWITCH_STATUS_GENERR)
       /\ recording_duration s' = 3
       /\ is_recording s' = 1
       /\ record_session s' = 77.
Proof.
  split; [reflexivity|]. split; [reflexivity|].
  eexists. split; [vm_compute; reflexivity|].
  repeat split; reflexivity.
Qed.

(** C8 (as amended), on that session: a failing stop and a successful one. *)
Lemma stop_recording_outcomes_witness :
  (exists s' out st,
     voice_detector_stop_recording (env_stop_fails (t0 + tick + 3000000))
       short_silence_voiced = (s', out, st)
     /\ recording_duration s'
        = Z.quot (to_int64 (rec_now (env_stop_fails (t0 + tick + 3000000))
                            - recording_start_time short_silence_voiced)) 1000000
     /\ (stop_result (env_stop_fails (t0 + tick + 3000000)) = SWITCH_STATUS_SUCCESS ->
         st = SWITCH_STATUS_SUCCESS
         /\ is_recording s' = 0
         /\ record_session s' = 0
         /\ out = [api_call short_silence_voiced VOICE_DETECTOR_EVENT_RECORDING_STOP
                     (to_int (recording_duration s'))])
     /\ (stop_result (env_stop_fails (t0 + tick + 3000000)) <> SWITCH_STATUS_SUCCESS ->
         st = stop_result (env_stop_fails (t0 + tick + 3000000))
         /\ is_recording s' = is_recording short_silence_voiced
         /\ record_session s' = record_session short_silence_voiced
         /\ out = []))
  /\ (exists s' out st,
        voice_detector_stop_recording (env_at (t0 + tick + 3000000))
          short_silence_voiced = (s', out, st)
        /\ recording_duration s'
           = Z.quot (to_int64 (rec_now (env_at (t0 + tick + 3000000))
                               - recording_start_time short_silence_voiced)) 1000000
        /\ (stop_result (env_at (t0 + tick + 3000000)) = SWITCH_STATUS_SUCCESS ->
            st = SWITCH_STATUS_SUCCESS
            /\ is_recording s' = 0
            /\ record_session s' = 0
            /\ out = [api_call short_silence_voiced VOICE_DETECTOR_EVENT_RECORDING_STOP
                        (to_int (recording_duration s'))])
        /\ (stop_result (env_at (t0 + tick + 3000000)) <> SWITCH_STATUS_SUCCESS ->
            st = stop_result (env_at (t0 + tick + 3000000))
            /\ is_recording s' = is_recording short_silence_voiced
            /\ record_session s' = record_session short_silence_voiced
            /\ out = [])).
Proof.
  split.
  - apply (stop_recording_outcomes (env_stop_fails (t0 + tick + 3000000))
             short_silence_voiced); discriminate.
  - apply (stop_recording_outcomes (env_at (t0 + tick + 3000000))
             short_silence_voiced); discriminate.
Defined.

(* ------------------------------------------------------------------ *)
(** ** The notification throttle *)

Lemma throttle_equiv_refl (s : voice_detector_session_t) : throttle_equiv s s.
Proof. reflexivity. Qed.

Lemma throttle_equiv_set (t : Z) (s : voice_detector_session_t) :
  throttle_equiv s (set_last_api_call_time t s).
Proof. reflexivity. Qed.

Lemma throttle_equiv_fields (a b : voice_detector_session_t) :
  throttle_equiv a b ->
  voice_detected a = voice_detected b
  /\ consecutive_hits a = consecutive_hits b
  /\ silence_frames a = silence_frames b
  /\ current_word_length a = current_word_length b
  /\ is_recording a = is_recording b
  /\ record_session a = record_session b
  /\ total_frames a = total_frames b
  /\ word_start_time a = word_start_time b
  /\ runtime_params a = runtime_params b.
Proof.
  unfold throttle_equiv, set_last_api_call_time. intros H.
  injection H. intros. repeat split; assumption.
Qed.

(** One frame: the throttle state and the debounce setting influence
    nothing but [last_api_call_time] and the voice notifications. *)
Lemma callback_throttle_independent (g1 g2 : voice_detector_global_t)
    (s1 s2 : voice_detector_session_t) (e : env) (f : frame) :
  same_geometry g1 g2 -> throttle_equiv s1 s2 ->
  match voice_detector_callback g1 s1 e f, voice_detector_callback g2 s2 e f with
  | Some (a, o1), Some (b, o2) =>
      throttle_equiv a b /\ unthrottled o1 = unthrottled o2
  | None, None => True
  | _, _ => False
  end.
Proof.
  destruct g1 as [fs1 sr1 db1], g2 as [fs2 sr2 db2].
  destruct s1, s2. unfold same_geometry, throttle_equiv. cbn.
  intros [-> ->] Heq. injection Heq. intros. subst.
  unfold_ops. unfold frame_accepted, frame_ms, c_div, debounce_elapsed. cbn.
  destruct (to_int (db1 * 1000) <? to_int64 (now e - last_api_call_time0));
    destruct (to_int (db2 * 1000) <? to_int64 (now e - last_api_call_time1));
    cbn; repeat (break_atom; cbn); auto; split; reflexivity.
Qed.

Lemma unthrottled_trace_stamp (t : Z) (out : list action) :
  unthrottled_trace (map (pair t) out) = map (pair t) (unthrottled out).
Proof.
  unfold unthrottled_trace, unthrottled.
  induction out as [|a out IH]; cbn; [reflexivity|].
  destruct (is_voice_event a); cbn; now rewrite IH.
Qed.

Lemma unthrottled_trace_app (a b : list (Z * action)) :
  unthrottled_trace (a ++ b) = unthrottled_trace a ++ unthrottled_trace b.
Proof. apply filter_app. Qed.

(** C10.  Run the same frames on two sessions that differ at most in
    [last_api_call_time], under configurations that differ at most in
    [debounce_ms] (so that a voice notification may be suppressed in one run
    and dispatched in the other).  Either both runs trap in the division by
    [sample_rate], or both complete, and then: [voice_detected],
    [consecutive_hits], [silence_frames], [current_word_length] and
    [is_recording] are the same, every other field but [last_api_call_time]
    is the same, and the two traces, voice notifications left out, are the
    same: the same start / stop directives and the same recording and word
    notifications, at the same frames, in the same order. *)
Theorem detection_independent_of_throttle
    (g1 g2 : voice_detector_global_t) (ins : list (env * frame)) :
  forall s1 s2 : voice_detector_session_t,
    same_geometry g1 g2 -> throttle_equiv s1 s2 ->
    match run g1 s1 ins, run g2 s2 ins with
    | Some (a, t1), Some (b, t2) =>
        voice_detected a = voice_detected b
        /\ consecutive_hits a = consecutive_hits b
        /\ silence_frames a = silence_frames b
        /\ current_word_length a = current_word_length b
        /\ is_recording a = is_recording b
        /\ throttle_equiv a b
        /\ unthrottled_trace t1 = unthrottled_trace t2
    | None, None => True
    | _, _ => False
    end.
Proof.
  induction ins as [|[e f] ins IH]; intros s1 s2 Hg Hs.
  - cbn. pose proof (throttle_equiv_fields s1 s2 Hs). tauto.
  - cbn [run].
    pose proof (callback_throttle_independent g1 g2 s1 s2 e f Hg Hs) as Hstep.
    destruct (voice_detector_callback g1 s1 e f) as [[a o1]|],
             (voice_detector_callback g2 s2 e f) as [[b o2]|];
      try contradiction; [|exact I].
    destruct Hstep as [Hab Hout].
    specialize (IH a b Hg Hab).
    destruct (run g1 a ins) as [[a' t1]|], (run g2 b ins) as [[b' t2]|];
      try contradiction; [|exact I].
    destruct IH as (? & ? & ? & ? & ? & ? & Htr).
    repeat split; auto.
    now rewrite !unthrottled_trace_app, !unthrottled_trace_stamp, Hout, Htr.
Qed.

(** C10, on the eight frames of silence after [short_silence_voiced]: the
    run that suppresses the voice-end notification and the run that
    dispatches it. *)
Lemma detection_independent_of_throttle_witness :
  match run default_globals short_silence_voiced
          (frames_from (t0 + 2 * tick) 8 quiet_frame),
        run default_globals short_silence_voiced_unnotified
          (frames_from (t0 + 2 * tick) 8 quiet_frame) with
  | Some (a, t1), Some (b, t2) =>
      voice_detected a = voice_detected b
      /\ consecutive_hits a = consecutive_hits b
      /\ silence_frames a = silence_frames b
      /\ current_word_length a = current_word_length b
      /\ is_recording a = is_recording b
      /\ throttle_equiv a b
      /\ unthrottled_trace t1 = unthrottled_trace t2
  | None, None => True
  | _, _ => False
  end.
Proof.
  apply (detection_independent_of_throttle default_globals default_globals
           (frames_from (t0 + 2 * tick) 8 quiet_frame)
           short_silence_voiced short_silence_voiced_unnotified).
  - split; reflexivity.
  - reflexivity.
Defined.

Example throttle_runs_differ :
  exists a t1 b t2,
    run default_globals short_silence_voiced
      (frames_from (t0 + 2 * tick) 8 quiet_frame) = Some (a, t1)
    /\ run default_globals short_silence_voiced_unnotified
         (frames_from (t0 + 2 * tick) 8 quiet_frame) = Some (b, t2)
    /\ count_event VOICE_DETECTOR_EVENT_VOICE_END (map snd t1) = 0%nat
    /\ count_event VOICE_DETECTOR_EVENT_VOICE_END (map snd t2) = 1%nat
    /\ last_api_call_time a = t0
    /\ last_api_call_time b = t0 + 7 * tick.
Proof.
  do 4 eexists.
  split; [vm_compute; reflexivity|].
  split; [vm_compute; reflexivity|].
  repeat split; reflexivity.
Qed.












Example one_hit_session_reached :
  run default_globals session0 (frames_from t0 1 loud_frame)
  = Some (one_hit_session,
          [(t0, ApiCall "call-1" VOICE_DETECTOR_EVENT_VOICE_START 200 "a")])
  /\ last_api_call_time one_hit_session = t0.
Proof. split; [vm_compute; reflexivity|reflexivity]. Qed.


(* ------------------------------------------------------------------ *)
(** ** Further properties of the callback *)

(** X1.  The square of a 16-bit sample, as the energy loop computes it,
    never overflows the [int] it is computed in, and is at most 32768
    squared (the constant the score is normalised by). *)
Theorem sample_square_exact (x : Z) :
  in_int16 x ->
  sample_square x = x * x /\ 0 <= sample_square x <= 32768 * 32768.
Proof.
  unfold in_int16, sample_square. intros H.
  rewrite to_int_id by (unfold in_int, int_min, int_max; nia). nia.
Qed.

(** X1, at the sample of largest magnitude. *)
Lemma sample_square_exact_witness :
  sample_square (-32768) = -32768 * -32768
  /\ 0 <= sample_square (-32768) <= 32768 * 32768.
Proof.
  apply (sample_square_exact (-32768)). unfold in_int16. lia.
Defined.

Lemma callback_word_within_limit (g : voice_detector_global_t)
    (s : voice_detector_session_t) (e : env) (f : frame)
    (s' : voice_detector_session_t) (out : list action) :
  0 <= maximum_word_length (runtime_params s) ->
  word_within_limit s ->
  voice_detector_callback g s e f = Some (s', out) ->
  word_within_limit s' /\ runtime_params s' = runtime_params s.
Proof.
  destruct g as [fs sr db]. destruct s. unfold word_within_limit. cbn.
  intros Hmax Hinv.
  unfold_ops. unfold frame_accepted, frame_ms, c_div, debounce_elapsed. cbn.
  destruct (to_int (db * 1000) <? to_int64 (now e - last_api_call_time0));
    cbn; repeat (break_atom; cbn);
    intros H; try discriminate; injection H as <- <-; cbn;
    (split; [|reflexivity]); intros Hvd; zbool; try lia; try congruence;
    apply Hinv; congruence.
Qed.

(** X2.  With a non-negative [maximum_word_length], a session that starts
    within the limit (a fresh session does: its voice is off) never holds
    [current_word_length > maximum_word_length] while [voice_detected] is
    set, at any frame boundary of any run. *)
Theorem word_length_within_limit_while_voiced
    (g : voice_detector_global_t) (ins : list (env * frame)) :
  forall (s s' : voice_detector_session_t) (tr : list (Z * action)),
    0 <= maximum_word_length (runtime_params s) ->
    word_within_limit s ->
    run g s ins = Some (s', tr) ->
    word_within_limit s'.
Proof.
  induction ins as [|[e f] ins IH]; intros s s' tr Hmax Hinv Hrun.
  - cbn in Hrun. now injection Hrun as <- <-.
  - cbn [run] in Hrun.
    destruct (voice_detector_callback g s e f) as [[s1 out]|] eqn:Hcb;
      [|discriminate].
    destruct (run g s1 ins) as [[s2 tr']|] eqn:Hrest; [|discriminate].
    injection Hrun as <- <-.
    destruct (callback_word_within_limit g s e f s1 out Hmax Hinv Hcb)
      as [Hinv1 Hp1].
    apply (IH s1 s2 tr'); auto. now rewrite Hp1.
Qed.

(** X2, on the default session after 177 frames above the threshold. *)
Lemma word_length_within_limit_while_voiced_witness :
  current_word_length long_word_session
  <= maximum_word_length (runtime_params long_word_session).
Proof.
  apply (word_length_within_limit_while_voiced default_globals
           (frames_from t0 177 loud_frame) session0 long_word_session
           (trace_of default_globals session0 (frames_from t0 177 loud_frame))).
  - vm_compute. discriminate.
  - intros H. exfalso. apply H. reflexivity.
  - vm_compute. reflexivity.
  - discriminate.
Defined.

(** X3.  While the voice is on, an accepted above-threshold frame that keeps
    the word within [maximum_word_length] dispatches nothing: it resets
    [consecutive_hits], adds the frame's milliseconds to
    [current_word_length], and leaves [voice_detected] and [silence_frames]
    as they are (the silence count is not restarted by voice). *)
Theorem voiced_loud_frame_accumulates (g : voice_detector_global_t) (d : Z)
    (s : voice_detector_session_t) (e : env) (f : frame) :
  frame_ms g = Some d ->
  session s <> 0 -> voice_detected s <> 0 -> loud (e, f) = true ->
  to_int (current_word_length s + d) <= maximum_word_length (runtime_params s) ->
  exists s',
    voice_detector_callback g s e f = Some (s', [])
    /\ voice_detected s' = voice_detected s
    /\ consecutive_hits s' = 0
    /\ current_word_length s' = to_int (current_word_length s + d)
    /\ silence_frames s' = silence_frames s.
Proof.
  intros Hd Hs Hvd Hl Hlim.
  destruct (loud_inv s e f Hs Hl) as [Hacc Habove].
  apply Z.eqb_neq in Hvd. apply Z.ltb_ge in Hlim.
  unfold_ops. rewrite Hacc, Habove. cbn. rewrite Hvd, Hd. cbn.
  rewrite Hlim. eexists. split; [reflexivity|]. cbn. auto.
Qed.

(** X3, on the default session when the voice resumes after two frames of
    silence: [silence_frames] stays at 2. *)
Lemma voiced_loud_frame_accumulates_witness :
  exists s',
    voice_detector_callback default_globals voiced_session_gap
      (env_at (t0 + 12 * tick)) loud_frame = Some (s', [])
    /\ voice_detected s' = voice_detected voiced_session_gap
    /\ consecutive_hits s' = 0
    /\ current_word_length s' = to_int (current_word_length voiced_session_gap + 20)
    /\ silence_frames s' = silence_frames voiced_session_gap.
Proof.
  apply (voiced_loud_frame_accumulates default_globals 20 voiced_session_gap
           (env_at (t0 + 12 * tick)) loud_frame).
  - reflexivity.
  - discriminate.
  - discriminate.
  - reflexivity.
  - vm_compute. discriminate.
Defined.

(** X4.  [voice_detector_start_recording]: nothing happens when auto-recording
    is off or a recording is already running; otherwise, given a file name,
    a successful start marks the session as recording from the current
    clock and dispatches the recording-started notification, and a failed
    start returns the failure and changes nothing. *)
Theorem start_recording_outcomes (e : env) (s : voice_detector_session_t) :
  (auto_record (runtime_params s) = 0 \/ is_recording s <> 0 ->
   voice_detector_start_recording e s = (s, [], SWITCH_STATUS_SUCCESS))
  /\ (auto_record (runtime_params s) <> 0 -> is_recording s = 0 ->
      forall fn, rec_filename e = Some fn ->
      (start_result e = SWITCH_STATUS_SUCCESS ->
       exists s',
         voice_detector_start_recording e s
         = (s', [api_call s VOICE_DETECTOR_EVENT_RECORDING_START 0],
            SWITCH_STATUS_SUCCESS)
         /\ is_recording s' = 1
         /\ record_session s' = start_handle e
         /\ recording_file s' = Some fn
         /\ recording_start_time s' = rec_now e
         /\ recording_duration s' = 0)
      /\ (start_result e <> SWITCH_STATUS_SUCCESS ->
          voice_detector_start_recording e s = (s, [], start_result e))).
Proof.
  unfold voice_detector_start_recording, api_call. split.
  - intros [H|H].
    + rewrite H. reflexivity.
    + apply Z.eqb_neq in H. rewrite H. now rewrite orb_true_r.
  - intros Hauto Hrec fn Hfn.
    apply Z.eqb_neq in Hauto. rewrite Hauto, Hrec, Hfn. cbn. split.
    + intros ->. cbn. eexists. split; [reflexivity|]. cbn. auto.
    + intros Hfail. destruct (start_result e); cbn; congruence.
Qed.

(** X5.  A frame that fails the guard on entry (no session, no data, or no
    samples) changes nothing and is not counted. *)
Theorem ignored_frame_changes_nothing (g : voice_detector_global_t)
    (s : voice_detector_session_t) (e : env) (f : frame) :
  frame_accepted s f = false ->
  voice_detector_callback g s e f = Some (s, []).
Proof.
  intros H. unfold voice_detector_callback. rewrite H. reflexivity.
Qed.

(** X5, on a frame of zero samples. *)
Lemma ignored_frame_changes_nothing_witness :
  voice_detector_callback default_globals voiced_session (env_at t0)
    {| data_present := true; samples := 0; above_threshold := true;
       energy_level := 200 |}
  = Some (voiced_session, []).
Proof.
  apply ignored_frame_changes_nothing. reflexivity.
Defined.

(** X6.  The actions of one frame come in the order of the transitions: a
    voice-start notification before the start directive and its
    recording-started notification; the stop directive and its
    recording-stopped notification before a voice-end notification. *)
Theorem callback_actions_ordered (g : voice_detector_global_t)
    (s : voice_detector_session_t) (e : env) (f : frame)
    (s' : voice_detector_session_t) (out : list action) :
  voice_detector_callback g s e f = Some (s', out) ->
  frame_actions_ordered out.
Proof.
  destruct g as [fs sr db]. destruct s.
  unfold_ops. unfold frame_accepted, frame_ms, c_div, debounce_elapsed. cbn.
  destruct (to_int (db * 1000) <? to_int64 (now e - last_api_call_time0));
    cbn; repeat (break_atom; cbn);
    intros H; try discriminate; injection H as <- <-;
    unfold frame_actions_ordered;
    match goal with
    | |- context [ApiCall _ VOICE_DETECTOR_EVENT_VOICE_START _ _ :: ?r] =>
        exists [ApiCall uuid0 VOICE_DETECTOR_EVENT_VOICE_START (energy_level f)
                  (leg runtime_params0)], r, [], [], []
    | |- context [ApiCall _ VOICE_DETECTOR_EVENT_WORD_DETECTED ?v _] =>
        exists [], [], [], [],
          [ApiCall uuid0 VOICE_DETECTOR_EVENT_WORD_DETECTED v (leg runtime_params0)]
    | |- context [[Directive StopRecording;
                   ApiCall _ VOICE_DETECTOR_EVENT_RECORDING_STOP ?v _;
                   ApiCall _ VOICE_DETECTOR_EVENT_VOICE_END ?w _]] =>
        exists [], [],
          [Directive StopRecording;
           ApiCall uuid0 VOICE_DETECTOR_EVENT_RECORDING_STOP v (leg runtime_params0)],
          [ApiCall uuid0 VOICE_DETECTOR_EVENT_VOICE_END w (leg runtime_params0)], []
    | |- context [[Directive StopRecording;
                   ApiCall _ VOICE_DETECTOR_EVENT_VOICE_END ?w _]] =>
        exists [], [], [Directive StopRecording],
          [ApiCall uuid0 VOICE_DETECTOR_EVENT_VOICE_END w (leg runtime_params0)], []
    | |- context [Directive StartRecording :: ?r] =>
        exists [], (Directive StartRecording :: r), [], [], []
    | |- context [Directive StopRecording :: ?r] =>
        exists [], [], (Directive StopRecording :: r), [], []
    | |- _ => exists [], [], [], [], []
    end;
    cbn; repeat split;
    repeat (apply Forall_cons;
            [first [reflexivity | left; reflexivity | right; reflexivity]|]);
    apply Forall_nil.
Qed.

(** X6, on the frame that confirms the voice on the default session. *)
Lemma callback_actions_ordered_witness :
  frame_actions_ordered
    [Directive StartRecording;
     ApiCall "call-1" VOICE_DETECTOR_EVENT_RECORDING_START 0 "a"].
Proof.
  apply (callback_actions_ordered default_globals one_hit_session
           (env_at (t0 + tick)) loud_frame
           (after_run default_globals one_hit_session
              [(env_at (t0 + tick), loud_frame)])).
  vm_compute. reflexivity.
Defined.

(* ------------------------------------------------------------------ *)
(** ** Traps, directives and what a run leaves alone *)

Lemma callback_trap_condition (g : voice_detector_global_t)
    (s : voice_detector_session_t) (e : env) (f : frame) :
  voice_detector_callback g s e f = None
  <-> frame_accepted s f = true /\ voice_detected s <> 0 /\ frame_ms g = None.
Proof.
  unfold_ops.
  destruct (frame_accepted s f) eqn:Hacc; cbn;
    [|split; [discriminate|intros (H & _); discriminate]].
  destruct (voice_detected s =? 0) eqn:Hvd; zbool.
  - destruct (above_threshold f); cbn; rewrite ?Hvd; cbn;
      repeat (break_if; cbn);
      (split; [discriminate|intros (_ & H & _); congruence]).
  - apply Z.eqb_neq in Hvd.
    destruct (above_threshold f); cbn; rewrite ?Hvd; cbn;
      (destruct (frame_ms g) as [d|]; cbn;
       [repeat (break_if; cbn);
        (split; [discriminate|intros (_ & _ & H); discriminate])
       |zbool; tauto]).
Qed.

(** X7.  The callback traps exactly when it has to divide by a zero
    [sample_rate] (or [INT_MIN] by -1): on an accepted frame while the voice
    is on.  On any other frame, and on every frame when the division is
    defined, it completes; so does every run on such a geometry. *)
Theorem callback_traps_iff (g : voice_detector_global_t) :
  (forall (s : voice_detector_session_t) (e : env) (f : frame),
     voice_detector_callback g s e f = None
     <-> frame_accepted s f = true /\ voice_detected s <> 0 /\ frame_ms g = None)
  /\ (forall (ins : list (env * frame)) (s : voice_detector_session_t),
        frame_ms g <> None ->
        exists s' tr, run g s ins = Some (s', tr)).
Proof.
  pose proof (callback_trap_condition g) as Hstep.
  split; [exact Hstep|].
  induction ins as [|[e f] ins IH]; intros s Hd.
  - exists s, []. reflexivity.
  - cbn [run].
    destruct (voice_detector_callback g s e f) as [[s1 out]|] eqn:Hcb.
    + destruct (IH s1 Hd) as (s' & tr & ->). eauto.
    + apply Hstep in Hcb. tauto.
Qed.

(** X8.  The recording directives follow the voice: one frame calls
    [voice_detector_start_recording] exactly when it switches the voice on,
    and [voice_detector_stop_recording] exactly when it switches the voice
    off. *)
Theorem directives_follow_voice_transitions (g : voice_detector_global_t)
    (s : voice_detector_session_t) (e : env) (f : frame)
    (s' : voice_detector_session_t) (out : list action) :
  voice_detector_callback g s e f = Some (s', out) ->
  (In (Directive StartRecording) out
   <-> voice_detected s = 0 /\ voice_detected s' = 1)
  /\ (In (Directive StopRecording) out
      <-> voice_detected s <> 0 /\ voice_detected s' = 0).
Proof.
  destruct g as [fs sr db]. destruct s.
  callback_paths;
    intros H; try discriminate; injection H as <- <-; cbn; zbool;
    intuition (try discriminate; try congruence; try lia).
Qed.

(** X8, on the frame that confirms the voice on the default session. *)
Lemma directives_follow_voice_transitions_witness :
  (In (Directive StartRecording)
      [Directive StartRecording;
       ApiCall "call-1" VOICE_DETECTOR_EVENT_RECORDING_START 0 "a"]
   <-> voice_detected one_hit_session = 0
       /\ voice_detected
            (after_run default_globals one_hit_session
               [(env_at (t0 + tick), loud_frame)]) = 1)
  /\ (In (Directive StopRecording)
         [Directive StartRecording;
          ApiCall "call-1" VOICE_DETECTOR_EVENT_RECORDING_START 0 "a"]
      <-> voice_detected one_hit_session <> 0
          /\ voice_detected
               (after_run default_globals one_hit_session
                  [(env_at (t0 + tick), loud_frame)]) = 0).
Proof.
  apply (directives_follow_voice_transitions default_globals one_hit_session
           (env_at (t0 + tick)) loud_frame).
  vm_compute. reflexivity.
Defined.

(** One frame leaves the identity and the parameters of the session
    alone. *)
Lemma callback_keeps_configuration (g : voice_detector_global_t)
    (s : voice_detector_session_t) (e : env) (f : frame)
    (s' : voice_detector_session_t) (out : list action) :
  voice_detector_callback g s e f = Some (s', out) ->
  uuid s' = uuid s /\ session s' = session s
  /\ runtime_params s' = runtime_params s
  /\ between_words_silence_frames s' = between_words_silence_frames s
  /\ max_silence_frames s' = max_silence_frames s.
Proof.
  destruct g as [fs sr db]. destruct s.
  callback_paths;
    intros H; try discriminate; injection H as <- <-; cbn; auto.
Qed.

(** X9.  No run of frames changes what the session was started with: its
    uuid, its host session, its runtime parameters and the two frame limits
    derived from them. *)
Theorem run_keeps_configuration (g : voice_detector_global_t)
    (ins : list (env * frame)) :
  forall (s s' : voice_detector_session_t) (tr : list (Z * action)),
    run g s ins = Some (s', tr) ->
    uuid s' = uuid s /\ session s' = session s
    /\ runtime_params s' = runtime_params s
    /\ between_words_silence_frames s' = between_words_silence_frames s
    /\ max_silence_frames s' = max_silence_frames s.
Proof.
  induction ins as [|[e f] ins IH]; intros s s' tr Hrun.
  - cbn in Hrun. injection Hrun as <- <-. auto.
  - cbn [run] in Hrun.
    destruct (voice_detector_callback g s e f) as [[s1 out]|] eqn:Hcb;
      [|discriminate].
    destruct (run g s1 ins) as [[s2 tr']|] eqn:Hrest; [|discriminate].
    injection Hrun as <- <-.
    destruct (callback_keeps_configuration g s e f s1 out Hcb)
      as (H1 & H2 & H3 & H4 & H5).
    destruct (IH s1 s2 tr' Hrest) as (K1 & K2 & K3 & K4 & K5).
    repeat split; congruence.
Qed.

(** X9, on the default session: a hundred frames of voice and
    a hundred and ten of silence on the default session. *)
Lemma run_keeps_configuration_witness :
  uuid (after_run default_globals session0
          (frames_from t0 100 loud_frame
           ++ frames_from (t0 + 100 * tick) 110 quiet_frame)) = uuid session0
  /\ session (after_run default_globals session0
                (frames_from t0 100 loud_frame
                 ++ frames_from (t0 + 100 * tick) 110 quiet_frame))
     = session session0
  /\ runtime_params (after_run default_globals session0
                       (frames_from t0 100 loud_frame
                        ++ frames_from (t0 + 100 * tick) 110 quiet_frame))
     = runtime_params session0
  /\ between_words_silence_frames
       (after_run default_globals session0
          (frames_from t0 100 loud_frame
           ++ frames_from (t0 + 100 * tick) 110 quiet_frame))
     = between_words_silence_frames session0
  /\ max_silence_frames
       (after_run default_globals session0
          (frames_from t0 100 loud_frame
           ++ frames_from (t0 + 100 * tick) 110 quiet_frame))
     = max_silence_frames session0.
Proof.
  apply (run_keeps_configuration default_globals
           (frames_from t0 100 loud_frame
            ++ frames_from (t0 + 100 * tick) 110 quiet_frame)
           session0 _
           (trace_of default_globals session0
              (frames_from t0 100 loud_frame
               ++ frames_from (t0 + 100 * tick) 110 quiet_frame))).
  vm_compute. reflexivity.
Defined.

Lemma callback_recording_consistent (g : voice_detector_global_t)
    (s : voice_detector_session_t) (e : env) (f : frame)
    (s' : voice_detector_session_t) (out : list action) :
  start_handle e <> 0 -> recording_consistent s ->
  voice_detector_callback g s e f = Some (s', out) ->
  recording_consistent s'.
Proof.
  destruct g as [fs sr db]. destruct s. unfold recording_consistent. cbn.
  intros Hh Hinv.
  callback_paths;
    intros H; try discriminate; injection H as <- <-; cbn; zbool;
    repeat rewrite orb_false_iff in *; repeat rewrite negb_false_iff in *;
    zbool;
    intuition (try discriminate; try congruence; try lia).
Qed.

(** X10.  As long as the host hands back a record session with every
    successful start, a run keeps the session's flags consistent:
    [voice_detected] and [is_recording] hold 0 or 1, and while
    [is_recording] is 1 the session has its record session and its file
    name, and is one that records automatically. *)
Theorem run_keeps_recording_consistent (g : voice_detector_global_t)
    (ins : list (env * frame)) :
  forall (s s' : voice_detector_session_t) (tr : list (Z * action)),
    Forall (fun i => start_handle (fst i) <> 0) ins ->
    recording_consistent s ->
    run g s ins = Some (s', tr) ->
    recording_consistent s'.
Proof.
  induction ins as [|[e f] ins IH]; intros s s' tr Hall Hinv Hrun.
  - cbn in Hrun. now injection Hrun as <- <-.
  - inversion Hall as [|? ? Hh Hall']; subst. cbn [fst] in Hh.
    cbn [run] in Hrun.
    destruct (voice_detector_callback g s e f) as [[s1 out]|] eqn:Hcb;
      [|discriminate].
    destruct (run g s1 ins) as [[s2 tr']|] eqn:Hrest; [|discriminate].
    injection Hrun as <- <-.
    apply (IH s1 s2 tr' Hall'); auto.
    eapply callback_recording_consistent; eauto.
Qed.

(** X10, on the default session after ten frames above the threshold. *)
Lemma run_keeps_recording_consistent_witness :
  recording_consistent voiced_session.
Proof.
  apply (run_keeps_recording_consistent default_globals
           (frames_from t0 10 loud_frame) session0 voiced_session
           (trace_of default_globals session0 (frames_from t0 10 loud_frame))).
  - handles_present.
  - split; left; reflexivity.
  - vm_compute. reflexivity.
Defined.

(** X11.  [voice_detector_session_cleanup] on a consistent session: it
    dispatches nothing but, at most once, the recording-stopped notification
    with the whole seconds recorded, and it does so exactly when a recording
    is running and the host's stop facility succeeds; it always clears the
    file name; and with a stop facility that succeeds it leaves no recording
    running. *)
Theorem cleanup_stops_recording (e : env) (s : voice_detector_session_t) :
  recording_consistent s ->
  exists s' out,
    voice_detector_session_cleanup e s = (s', out)
    /\ recording_file s' = None
    /\ (out = []
        \/ out = [ApiCall (uuid s) VOICE_DETECTOR_EVENT_RECORDING_STOP
                    (to_int (Z.quot (to_int64 (rec_now e - recording_start_time s))
                                    1000000))
                    (leg (runtime_params s))])
    /\ (out <> [] <->
        is_recording s <> 0 /\ stop_result e = SWITCH_STATUS_SUCCESS)
    /\ (stop_result e = SWITCH_STATUS_SUCCESS -> is_recording s' = 0).
Proof.
  destruct s. unfold recording_consistent. cbn. intros [_ Hrec].
  unfold voice_detector_session_cleanup, voice_detector_stop_recording,
    api_call, status_ok.
  cbn.
  destruct Hrec as [-> | (-> & Hh & _ & _)]; cbn.
  - eexists _, _. split; [reflexivity|]. cbn.
    repeat split; auto; try tauto; try (intros [H _]; now elim H).
  - destruct (record_session0 =? 0) eqn:E; [zbool; lia|]. cbn.
    destruct (stop_result e) eqn:Es; cbn;
      (eexists _, _; split; [reflexivity|]; cbn;
       repeat split; auto; try discriminate; try tauto;
       try (intros [_ H]; discriminate H); try (intros H; now elim H)).
Qed.

(** X11, on the session that is recording after ten frames above the
    threshold. *)
Lemma cleanup_stops_recording_witness :
  exists s' out,
    voice_detector_session_cleanup (env_at (t0 + 3000000)) voiced_session
      = (s', out)
    /\ recording_file s' = None
    /\ (out = []
        \/ out = [ApiCall (uuid voiced_session)
                    VOICE_DETECTOR_EVENT_RECORDING_STOP
                    (to_int (Z.quot
                      (to_int64 (rec_now (env_at (t0 + 3000000))
                                 - recording_start_time voiced_session))
                      1000000))
                    (leg (runtime_params voiced_session))])
    /\ (out <> [] <->
        is_recording voiced_session <> 0
        /\ stop_result (env_at (t0 + 3000000)) = SWITCH_STATUS_SUCCESS)
    /\ (stop_result (env_at (t0 + 3000000)) = SWITCH_STATUS_SUCCESS ->
        is_recording s' = 0).
Proof.
  apply (cleanup_stops_recording (env_at (t0 + 3000000)) voiced_session).
  split; [right; reflexivity|].
  right. repeat split; discriminate.
Defined.

(* ------------------------------------------------------------------ *)
(** ** Frame counting and the notifications' contents *)

Lemma callback_total_frames (g : voice_detector_global_t)
    (s : voice_detector_session_t) (e : env) (f : frame)
    (s' : voice_detector_session_t) (out : list action) :
  voice_detector_callback g s e f = Some (s', out) ->
  session s' = session s
  /\ total_frames s' =
     if frame_accepted s f then to_int (total_frames s + 1) else total_frames s.
Proof.
  destruct g as [fs sr db]. destruct s.
  unfold voice_detector_callback.
  destruct (frame_accepted _ f) eqn:Hacc; cbn [negb].
  - revert Hacc. callback_paths;
      intros Hacc H; try discriminate; injection H as <- <-; cbn; auto.
  - intros H. injection H as <- <-. auto.
Qed.

(** X12.  [total_frames] counts the frames that pass the callback's guard,
    and no others: after a run it has grown by the number of accepted
    frames (in [int] arithmetic). *)
Theorem total_frames_counts_accepted (g : voice_detector_global_t)
    (ins : list (env * frame)) :
  forall (s s' : voice_detector_session_t) (tr : list (Z * action)),
    in_int (total_frames s) ->
    run g s ins = Some (s', tr) ->
    total_frames s' = to_int (total_frames s + Z.of_nat (accepted_frames s ins)).
Proof.
  unfold accepted_frames.
  induction ins as [|[e f] ins IH]; intros s s' tr Hin Hrun.
  - cbn in Hrun. injection Hrun as <- <-. cbn.
    rewrite Z.add_0_r. symmetry. now apply to_int_id.
  - cbn [run] in Hrun.
    destruct (voice_detector_callback g s e f) as [[s1 out]|] eqn:Hcb;
      [|discriminate].
    destruct (run g s1 ins) as [[s2 tr']|] eqn:Hrest; [|discriminate].
    injection Hrun as <- <-.
    destruct (callback_total_frames _ _ _ _ _ _ Hcb) as [Hs Ht].
    assert (Hin1 : in_int (total_frames s1)).
    { rewrite Ht. destruct (frame_accepted s f); auto. apply to_int_range. }
    rewrite (IH s1 s2 tr' Hin1 Hrest).
    assert (Hf : forall i : env * frame,
               frame_accepted s1 (snd i) = frame_accepted s (snd i)).
    { intros i. unfold frame_accepted. now rewrite Hs. }
    rewrite (filter_ext _ _ Hf).
    cbn [filter snd]. rewrite Ht.
    destruct (frame_accepted s f); cbn [length].
    + rewrite to_int_add_l. f_equal. lia.
    + reflexivity.
Qed.

(** X12, on the default session: ten frames, all accepted. *)
Lemma total_frames_counts_accepted_witness :
  total_frames voiced_session = 10.
Proof.
  exact (total_frames_counts_accepted default_globals
           (frames_from t0 10 loud_frame) session0 voiced_session
           (trace_of default_globals session0 (frames_from t0 10 loud_frame))
           ltac:(vm_compute; split; discriminate)
           ltac:(vm_compute; reflexivity)).
Defined.

Lemma callback_notifications (g : voice_detector_global_t)
    (s : voice_detector_session_t) (e : env) (f : frame)
    (s' : voice_detector_session_t) (out : list action) :
  voice_detector_callback g s e f = Some (s', out) ->
  Forall (notification_of s) out.
Proof.
  destruct g as [fs sr db]. destruct s.
  callback_paths;
    intros H; try discriminate; injection H as <- <-; cbn;
    repeat (apply Forall_cons;
            [cbn; first [exact I | repeat split; (reflexivity || discriminate)]|]);
    apply Forall_nil.
Qed.

(** X13.  Every notification of a run names the session it was made for:
    it carries the session's uuid and the leg of its runtime parameters,
    and its event is one of the five codes, 0 (voice end) to 4 (word). *)
Theorem run_notifications_name_session (g : voice_detector_global_t)
    (ins : list (env * frame)) :
  forall (s s' : voice_detector_session_t) (tr : list (Z * action)),
    run g s ins = Some (s', tr) ->
    Forall (fun ta => notification_of s (snd ta)) tr.
Proof.
  induction ins as [|[e f] ins IH]; intros s s' tr Hrun.
  - cbn in Hrun. injection Hrun as <- <-. constructor.
  - cbn [run] in Hrun.
    destruct (voice_detector_callback g s e f) as [[s1 out]|] eqn:Hcb;
      [|discriminate].
    destruct (run g s1 ins) as [[s2 tr']|] eqn:Hrest; [|discriminate].
    injection Hrun as <- <-.
    apply Forall_app. split.
    + apply Forall_map. cbn [snd]. exact (callback_notifications _ _ _ _ _ _ Hcb).
    + pose proof (callback_keeps_configuration _ _ _ _ _ _ Hcb) as Hk.
      pose proof (IH s1 s2 tr' Hrest) as Hall.
      revert Hall. apply Forall_impl. intros [t a].
      unfold notification_of. cbn [snd].
      destruct Hk as (Hu & _ & Hp & _).
      now rewrite Hu, Hp.
Qed.

(** X13, on the two frames that confirm the voice on the default session. *)
Lemma run_notifications_name_session_witness :
  Forall (fun ta => notification_of session0 (snd ta)) confirm_trace.
Proof.
  apply (run_notifications_name_session default_globals
           (frames_from t0 2 loud_frame) session0
           (after_run default_globals session0 (frames_from t0 2 loud_frame))
           confirm_trace).
  vm_compute. reflexivity.
Defined.

(** X14.  What [voice_detector_api_call] sends.  Without a configured URL
    it sends nothing and reports success.  With one, and a curl handle, it
    makes one request to that URL with a 10 second time-out, whose JSON
    object carries the uuid, the leg ("a" when none is given), the event
    code under [voice_detected] and, for the codes 0 to 4, the event's name
    under [event_type]; any other code gets no [event_type].  The status
    returned is success exactly when the transfer was performed, whatever
    the HTTP response code. *)
Theorem api_call_request (c : voice_detector_settings) (clock : Z)
    (t : api_transport) (id : string) (event value : Z)
    (on_leg : option string) :
  (cfg_api_url c = None ->
   voice_detector_api_call c clock t id event value on_leg
     = (None, SWITCH_STATUS_SUCCESS))
  /\ (forall url, cfg_api_url c = Some url -> curl_ready t = true ->
      exists r,
        voice_detector_api_call c clock t id event value on_leg
          = (Some r,
             if perform_ok t then SWITCH_STATUS_SUCCESS else SWITCH_STATUS_FALSE)
        /\ req_url r = url /\ req_timeout r = 10
        /\ json_lookup "uuid" (req_json r) = Some (JString id)
        /\ json_lookup "leg" (req_json r)
           = Some (JString (match on_leg with Some l => l | None => "a" end))
        /\ json_lookup "voice_detected" (req_json r) = Some (JInt event)
        /\ json_lookup "event_type" (req_json r)
           = (if (0 <=? event) && (event <=? 4)
              then Some (JString (nth (Z.to_nat event) event_type_names EmptyString))
              else None))
  /\ (forall url, cfg_api_url c = Some url -> curl_ready t = false ->
      voice_detector_api_call c clock t id event value on_leg
        = (None, SWITCH_STATUS_FALSE)).
Proof.
  unfold voice_detector_api_call. repeat split.
  - intros ->. reflexivity.
  - intros url -> ->. eexists. split; [reflexivity|]. cbn.
    repeat split.
    unfold event_members.
    destruct (0 <=? event) eqn:E0; destruct (event <=? 4) eqn:E4; cbn [andb];
      zbool.
    + assert (Hc : event = 0 \/ event = 1 \/ event = 2 \/ event = 3 \/ event = 4)
        by lia.
      destruct Hc as [-> | [-> | [-> | [-> | ->]]]]; reflexivity.
    + repeat (break_atom; zbool; try lia). reflexivity.
    + repeat (break_atom; zbool; try lia). reflexivity.
    + lia.
  - intros url -> ->. reflexivity.
Qed.

(** X15.  The time stamp of a notification is the clock narrowed to [int]
    and then divided: it always lies within 2147 seconds of zero, it is the
    clock's whole seconds only while the clock itself fits an [int], and
    for every later clock it is below them. *)
Theorem api_timestamp_narrowed (clock : Z) (id : string) (event value : Z)
    (on_leg : option string) :
  exists ts,
    json_lookup "timestamp" (api_json clock id event value on_leg)
      = Some (JInt ts)
    /\ -2147 <= ts <= 2147
    /\ (in_int clock -> ts = Z.quot clock 1000000)
    /\ (2147483647 < clock -> ts < Z.quot clock 1000000).
Proof.
  exists (Z.quot (to_int clock) 1000000). split; [reflexivity|].
  pose proof (to_int_range clock) as Hr.
  unfold in_int, int_min, int_max in *.
  split; [Z.to_euclidean_division_equations; lia|]. split.
  - intros Hin. now rewrite to_int_id.
  - intros Hbig.
    destruct (Z_lt_le_dec clock 2148000000) as [Hs | Hl].
    + assert (Hw : to_int clock = clock - 4294967296).
      { unfold to_int.
        replace (clock + 2147483648) with ((clock - 2147483648) + 1 * 4294967296)
          by lia.
        rewrite Z_mod_plus_full, Z.mod_small; lia. }
      rewrite Hw. Z.to_euclidean_division_equations; lia.
    + Z.to_euclidean_division_equations; lia.
Qed.

(* ------------------------------------------------------------------ *)
(** ** Runtime parameters *)

Lemma strcasecmp_eq_same_key (key a b : string) :
  strcasecmp_eq key a = true -> strcasecmp_eq key b = strcasecmp_eq a b.
Proof.
  unfold strcasecmp_eq. intros H. apply String.eqb_eq in H. now rewrite H.
Qed.

(** One token, seen from one field: the key is compared with the field's
    name [n]; [Hk] names the outcome. *)
Ltac token_field key n :=
  let Hk := fresh "Hk" in
  destruct (strcasecmp_eq key n) eqn:Hk;
  [ repeat rewrite (strcasecmp_eq_same_key _ _ _ Hk); eval_names; reflexivity
  | repeat (break_atom; try reflexivity) ].

Lemma parse_runtime_token_int (a : voice_detector_runtime_args) (arg : string)
    (k : int_param) :
  get_int_param k (args_params (parse_runtime_token a arg)) =
  match split_equals arg with
  | Some (key, v) =>
    if strcasecmp_eq key (int_param_name k) then atoi v
    else get_int_param k (args_params a)
  | None => get_int_param k (args_params a)
  end.
Proof.
  unfold parse_runtime_token.
  destruct (split_equals arg) as [[key v]|]; [|reflexivity].
  destruct k; cbn [int_param_name];
    match goal with
    | |- _ = if strcasecmp_eq key ?n then _ else _ => token_field key n
    end.
Qed.

Lemma parse_runtime_token_leg (a : voice_detector_runtime_args) (arg : string) :
  leg (args_params (parse_runtime_token a arg)) =
  match split_equals arg with
  | Some (key, v) =>
    if strcasecmp_eq key "leg" then v else leg (args_params a)
  | None => leg (args_params a)
  end.
Proof.
  unfold parse_runtime_token.
  destruct (split_equals arg) as [[key v]|]; [|reflexivity].
  token_field key "leg"%string.
Qed.

Lemma parse_runtime_token_threshold (a : voice_detector_runtime_args)
    (arg : string) :
  args_threshold (parse_runtime_token a arg) =
  match split_equals arg with
  | Some (key, v) =>
    if strcasecmp_eq key "threshold" then Some v else args_threshold a
  | None => args_threshold a
  end.
Proof.
  unfold parse_runtime_token.
  destruct (split_equals arg) as [[key v]|]; [|reflexivity].
  token_field key "threshold"%string.
Qed.

Lemma parse_runtime_token_energy_threshold (a : voice_detector_runtime_args)
    (arg : string) :
  args_energy_threshold (parse_runtime_token a arg) =
  match split_equals arg with
  | Some (key, v) =>
    if strcasecmp_eq key "energy_threshold" then Some v
    else args_energy_threshold a
  | None => args_energy_threshold a
  end.
Proof.
  unfold parse_runtime_token.
  destruct (split_equals arg) as [[key v]|]; [|reflexivity].
  token_field key "energy_threshold"%string.
Qed.

Lemma parse_runtime_token_recording_path (a : voice_detector_runtime_args)
    (arg : string) :
  args_recording_path (parse_runtime_token a arg) =
  match split_equals arg with
  | Some (key, v) =>
    if strcasecmp_eq key "recording_path" then Some v
    else args_recording_path a
  | None => args_recording_path a
  end.
Proof.
  unfold parse_runtime_token.
  destruct (split_equals arg) as [[key v]|]; [|reflexivity].
  token_field key "recording_path"%string.
Qed.

Lemma parse_runtime_token_recording_prefix (a : voice_detector_runtime_args)
    (arg : string) :
  args_recording_prefix (parse_runtime_token a arg) =
  match split_equals arg with
  | Some (key, v) =>
    if strcasecmp_eq key "recording_prefix" then Some v
    else args_recording_prefix a
  | None => args_recording_prefix a
  end.
Proof.
  unfold parse_runtime_token.
  destruct (split_equals arg) as [[key v]|]; [|reflexivity].
  token_field key "recording_prefix"%string.
Qed.

(** A field that one token sets from the value under its own name, and
    leaves alone otherwise, ends as the last such value. *)
Lemma fold_tokens_last_value {A : Type} (proj : voice_detector_runtime_args -> A)
    (name : string) (conv : string -> A) :
  (forall a arg,
      proj (parse_runtime_token a arg) =
      match split_equals arg with
      | Some (key, v) => if strcasecmp_eq key name then conv v else proj a
      | None => proj a
      end) ->
  forall argv a,
    proj (fold_left parse_runtime_token argv a) =
    match last_value name argv with Some v => conv v | None => proj a end.
Proof.
  intros Htok. induction argv as [|arg rest IH]; intros a;
    cbn [fold_left last_value]; [reflexivity|].
  rewrite IH. destruct (last_value name rest); [reflexivity|].
  rewrite Htok. destruct (split_equals arg) as [[key v]|]; [|reflexivity].
  destruct (strcasecmp_eq key name); reflexivity.
Qed.

Lemma parse_runtime_params_int (argv : list string) (k : int_param) :
  get_int_param k (args_params (voice_detector_parse_runtime_params argv)) =
  match last_value (int_param_name k) argv with
  | Some v => atoi v
  | None => get_int_param k default_runtime_params
  end.
Proof.
  unfold voice_detector_parse_runtime_params.
  exact (fold_tokens_last_value (fun a => get_int_param k (args_params a))
           (int_param_name k) atoi
           (fun a arg => parse_runtime_token_int a arg k) argv
           default_runtime_args).
Qed.

(** X16.  [voice_detector_parse_runtime_params] gives every parameter the
    value of the last [key=value] token that names it, the key compared
    without regard to case, and its default when no token does: the
    integer parameters through [atoi], [leg] and the two paths as the text
    after the first ['='], the two thresholds as the text [atof] is applied
    to. *)
Theorem parse_runtime_params_last_value (argv : list string) :
  let a := voice_detector_parse_runtime_params argv in
  (forall k : int_param,
      get_int_param k (args_params a) =
      match last_value (int_param_name k) argv with
      | Some v => atoi v
      | None => get_int_param k default_runtime_params
      end)
  /\ leg (args_params a)
     = match last_value "leg" argv with Some v => v | None => "a"%string end
  /\ args_threshold a = last_value "threshold" argv
  /\ args_energy_threshold a = last_value "energy_threshold" argv
  /\ args_recording_path a = last_value "recording_path" argv
  /\ args_recording_prefix a = last_value "recording_prefix" argv.
Proof.
  cbv zeta. unfold voice_detector_parse_runtime_params.
  split; [intros k; apply parse_runtime_params_int|].
  split.
  { exact (fold_tokens_last_value (fun a => leg (args_params a)) "leg"
             (fun v => v) parse_runtime_token_leg argv default_runtime_args). }
  split.
  { rewrite (fold_tokens_last_value args_threshold "threshold" Some
               parse_runtime_token_threshold argv default_runtime_args).
    now destruct (last_value _ argv). }
  split.
  { rewrite (fold_tokens_last_value args_energy_threshold "energy_threshold"
               Some parse_runtime_token_energy_threshold argv
               default_runtime_args).
    now destruct (last_value _ argv). }
  split.
  { rewrite (fold_tokens_last_value args_recording_path "recording_path" Some
               parse_runtime_token_recording_path argv default_runtime_args).
    now destruct (last_value _ argv). }
  rewrite (fold_tokens_last_value args_recording_prefix "recording_prefix" Some
             parse_runtime_token_recording_prefix argv default_runtime_args).
  now destruct (last_value _ argv).
Qed.

Lemma token_ignored_noop (a : voice_detector_runtime_args) (arg : string) :
  token_ignored arg = true -> parse_runtime_token a arg = a.
Proof.
  unfold token_ignored, parse_runtime_token.
  destruct (split_equals arg) as [[key v]|]; [|reflexivity].
  cbn [existsb runtime_keys]. intros H. apply negb_true_iff in H.
  repeat (apply orb_false_iff in H; destruct H as [? H]).
  repeat match goal with
  | Hf : strcasecmp_eq key _ = false |- _ => rewrite Hf; clear Hf
  end.
  reflexivity.
Qed.

(** X17.  Tokens without an ['='] and tokens whose key is none of the
    sixteen known names have no effect on the result, wherever they stand:
    parsing a token list is parsing it with those tokens taken out. *)
Theorem parse_runtime_params_skips_unknown (argv : list string) :
  voice_detector_parse_runtime_params argv =
  voice_detector_parse_runtime_params
    (filter (fun arg => negb (token_ignored arg)) argv).
Proof.
  unfold voice_detector_parse_runtime_params.
  generalize default_runtime_args.
  induction argv as [|arg rest IH]; intros a; cbn [filter fold_left];
    [reflexivity|].
  destruct (token_ignored arg) eqn:Hi; cbn [negb fold_left].
  - rewrite (token_ignored_noop a arg Hi). apply IH.
  - apply IH.
Qed.

(** X18.  From the application data to the first frame: when the last
    [hits] token reads as a number below 2 (text that is no number reads
    as 0), the session made from the parsed parameters has its voice
    confirmed, and its recording directed to start, by the first accepted
    frame above the threshold. *)
Theorem hits_below_two_confirms_at_once (g : voice_detector_global_t)
    (sess : Z) (id : string) (argv : list string) (v : string)
    (s : voice_detector_session_t) (e : env) (f : frame) :
  last_value "hits" argv = Some v -> atoi v <= 1 ->
  voice_detector_new_session g sess id
    (args_params (voice_detector_parse_runtime_params argv)) = Some s ->
  sess <> 0 -> frame_valid f = true -> above_threshold f = true ->
  exists s' out,
    voice_detector_callback g s e f = Some (s', out)
    /\ voice_detected s' = 1
    /\ In (Directive StartRecording) out.
Proof.
  intros Hlast Hv Hnew Hsess Hf Hab.
  pose proof (parse_runtime_params_int argv P_hits) as Hh.
  cbn [get_int_param int_param_name] in Hh. rewrite Hlast in Hh.
  unfold voice_detector_new_session, voice_detector_apply_runtime_params in Hnew.
  destruct (c_div _ _) as [ms|] in Hnew; [|discriminate].
  destruct (c_div _ _) as [bw|] in Hnew; [|discriminate].
  injection Hnew as Hs.
  assert (Hses : session s = sess) by (now rewrite <- Hs).
  assert (Hvd0 : voice_detected s = 0) by (now rewrite <- Hs).
  assert (Hch : consecutive_hits s = 0) by (now rewrite <- Hs).
  assert (Hhs : hits (runtime_params s) = atoi v) by (now rewrite <- Hs).
  assert (Hacc : frame_accepted s f = true).
  { apply frame_valid_accepted; [now rewrite Hses | exact Hf]. }
  destruct (callback_idle_hit_confirm g s e f Hacc Hab Hvd0)
    as (s' & out & Hcb & Hvd & _ & _ & _ & Hin).
  - rewrite Hhs, Hch. change (to_int (0 + 1)) with 1. exact Hv.
  - exists s', out. auto.
Qed.

(** X18, for the application data [hits=many leg=b] on the default
    geometry. *)
Lemma hits_below_two_confirms_at_once_witness :
  exists s' out,
    voice_detector_callback default_globals
      (fresh_session
         (args_params (voice_detector_parse_runtime_params
                         ["hits=many"; "leg=b"]%string)) 2 100)
      (env_at t0) loud_frame = Some (s', out)
    /\ voice_detected s' = 1
    /\ In (Directive StartRecording) out.
Proof.
  apply (hits_below_two_confirms_at_once default_globals 1 "call-1"
           ["hits=many"; "leg=b"]%string "many").
  - reflexivity.
  - vm_compute. discriminate.
  - vm_compute. reflexivity.
  - discriminate.
  - reflexivity.
  - reflexivity.
Defined.

(* ------------------------------------------------------------------ *)
(** ** The configuration file *)

(** One [param] element, seen from one local variable. *)
Ltac config_field var n :=
  let Hk := fresh "Hk" in
  destruct (strcasecmp_eq var n) eqn:Hk;
  [ repeat rewrite (strcasecmp_eq_same_key _ _ _ Hk); eval_names; reflexivity
  | repeat (break_atom; try reflexivity) ].

(** A local variable that one element sets when it carries the variable's
    name ends as the value of the last such element. *)
Lemma fold_config_last_value (proj : config_values -> option string)
    (name : string) :
  (forall v var val,
      proj (read_config_param v (var, val)) =
      if strcasecmp_eq var name then Some val else proj v) ->
  forall params v,
    proj (fold_left read_config_param params v) =
    match last_config_value name params with
    | Some x => Some x
    | None => proj v
    end.
Proof.
  intros Hstep. induction params as [|[var val] rest IH]; intros v;
    cbn [fold_left last_config_value]; [reflexivity|].
  rewrite IH. destruct (last_config_value name rest); [reflexivity|].
  rewrite Hstep. destruct (strcasecmp_eq var name); reflexivity.
Qed.

Ltac config_last proj n :=
  rewrite (fold_config_last_value proj n);
  [ now destruct (last_config_value n _)
  | let v := fresh "v" in let var := fresh "var" in let val := fresh "val" in
    intros v var val; unfold read_config_param; config_field var n ].

Lemma read_config_last_values (params : list (string * string)) :
  let v := fold_left read_config_param params no_config_values in
  v_api_url v = last_config_value "api-url" params
  /\ v_api_key v = last_config_value "api-key" params
  /\ v_recording_path v = last_config_value "recording-path" params
  /\ v_recording_prefix v = last_config_value "recording-prefix" params
  /\ v_energy_threshold v = last_config_value "energy-threshold" params
  /\ v_silence_threshold v = last_config_value "silence-threshold" params
  /\ v_frame_size v = last_config_value "frame-size" params
  /\ v_sample_rate v = last_config_value "sample-rate" params
  /\ v_debounce_ms v = last_config_value "debounce-ms" params
  /\ v_max_silence_duration v = last_config_value "max-silence-duration" params
  /\ v_auto_record v = last_config_value "auto-record" params
  /\ v_recording_format v = last_config_value "recording-format" params.
Proof.
  cbv zeta. repeat split.
  - config_last v_api_url "api-url"%string.
  - config_last v_api_key "api-key"%string.
  - config_last v_recording_path "recording-path"%string.
  - config_last v_recording_prefix "recording-prefix"%string.
  - config_last v_energy_threshold "energy-threshold"%string.
  - config_last v_silence_threshold "silence-threshold"%string.
  - config_last v_frame_size "frame-size"%string.
  - config_last v_sample_rate "sample-rate"%string.
  - config_last v_debounce_ms "debounce-ms"%string.
  - config_last v_max_silence_duration "max-silence-duration"%string.
  - config_last v_auto_record "auto-record"%string.
  - config_last v_recording_format "recording-format"%string.
Qed.

(** X19.  [voice_detector_parse_config] on a configuration file: every
    setting takes the value of the last [param] element that names it, the
    name compared without regard to case.  An integer setting no element
    names gets its default (1000, 100, 160, 8000, 500, 2000, 1, 0), the
    recording path and prefix get ["/tmp"] and ["voice_detection"], and the
    API URL and key stay as they were. *)
Theorem parse_config_last_value (params : list (string * string))
    (c : voice_detector_settings) :
  let c' := voice_detector_parse_config (Some params) c in
  let last name := last_config_value name params in
  cfg_api_url c' = or_string (last "api-url"%string) (cfg_api_url c)
  /\ cfg_api_key c' = or_string (last "api-key"%string) (cfg_api_key c)
  /\ cfg_recording_path c'
     = or_string (last "recording-path"%string) (Some "/tmp"%string)
  /\ cfg_recording_prefix c'
     = or_string (last "recording-prefix"%string) (Some "voice_detection"%string)
  /\ cfg_energy_threshold c' = or_atoi (last "energy-threshold"%string) 1000
  /\ cfg_silence_threshold c' = or_atoi (last "silence-threshold"%string) 100
  /\ cfg_frame_size c' = or_atoi (last "frame-size"%string) 160
  /\ cfg_sample_rate c' = or_atoi (last "sample-rate"%string) 8000
  /\ cfg_debounce_ms c' = or_atoi (last "debounce-ms"%string) 500
  /\ cfg_max_silence_duration c'
     = or_atoi (last "max-silence-duration"%string) 2000
  /\ cfg_auto_record c' = or_atoi (last "auto-record"%string) 1
  /\ cfg_recording_format c' = or_atoi (last "recording-format"%string) 0.
Proof.
  cbv zeta. unfold voice_detector_parse_config, apply_config_values,
    config_defaults.
  cbn [cfg_api_url cfg_api_key cfg_recording_path cfg_recording_prefix
       cfg_energy_threshold cfg_silence_threshold cfg_frame_size
       cfg_sample_rate cfg_debounce_ms cfg_max_silence_duration
       cfg_auto_record cfg_recording_format].
  destruct (read_config_last_values params)
    as (-> & -> & -> & -> & -> & -> & -> & -> & -> & -> & -> & ->).
  repeat split.
Qed.

(** X20.  Where a session records to, from the application data and the
    configuration: the last [recording_path] token of the application data
    if there is one; otherwise the last [recording-path] element of the
    configuration file, or ["/tmp"] when the file has none; and when there
    is no configuration file at all, whatever the configuration held
    before, which the defaults do not touch. *)
Theorem recording_path_precedence (argv : list string)
    (xml : option (list (string * string))) (c : voice_detector_settings) :
  session_recording_path (voice_detector_parse_config xml c)
    (voice_detector_parse_runtime_params argv)
  = match last_value "recording_path" argv with
    | Some p => Some p
    | None =>
      match xml with
      | Some params =>
        Some (match last_config_value "recording-path" params with
              | Some p => p
              | None => "/tmp"%string
              end)
      | None => cfg_recording_path c
      end
    end.
Proof.
  unfold session_recording_path, voice_detector_parse_runtime_params.
  rewrite (fold_tokens_last_value args_recording_path "recording_path" Some
             parse_runtime_token_recording_path argv default_runtime_args).
  destruct (last_value "recording_path" argv); [reflexivity|].
  cbn [or_string default_runtime_args args_recording_path].
  destruct xml as [params|]; [|reflexivity].
  unfold voice_detector_parse_config, apply_config_values.
  cbn [cfg_recording_path].
  destruct (read_config_last_values params) as (_ & _ & -> & _).
  now destruct (last_config_value _ params).
Qed.

(** X21.  The geometry read from the configuration file is not checked.
    With a [sample-rate] that reads as 0 (text that is no number does),
    every accepted frame traps in the division once the voice is on; with
    such a [frame-size], applying the runtime parameters to a new session
    traps. *)
Theorem config_zero_geometry_traps (params : list (string * string))
    (c : voice_detector_settings) (v : string) :
  atoi v = 0 ->
  let g := geometry_of (voice_detector_parse_config (Some params) c) in
  (last_config_value "sample-rate" params = Some v ->
   forall s e f,
     frame_accepted s f = true -> voice_detected s <> 0 ->
     voice_detector_callback g s e f = None)
  /\ (last_config_value "frame-size" params = Some v ->
      forall sess id p, voice_detector_new_session g sess id p = None).
Proof.
  intros Hv. cbv zeta.
  unfold voice_detector_parse_config, apply_config_values, geometry_of.
  cbn [cfg_frame_size cfg_sample_rate cfg_debounce_ms].
  destruct (read_config_last_values params)
    as (_ & _ & _ & _ & _ & _ & Hfs & Hsr & _).
  rewrite Hfs, Hsr. split.
  - intros Hl s e f Hacc Hvd. rewrite Hl. cbn [or_atoi]. rewrite Hv.
    apply callback_trap_condition. repeat split; auto.
  - intros Hl sess id p. rewrite Hl. cbn [or_atoi]. rewrite Hv.
    unfold voice_detector_new_session, voice_detector_apply_runtime_params.
    cbn [frame_size sample_rate]. reflexivity.
Qed.

(** X21, for [sample-rate] "8k Hz" misspelt as "k8" and [frame-size]
    "none". *)
Lemma config_zero_geometry_traps_witness :
  voice_detector_callback
    (geometry_of (voice_detector_parse_config
                    (Some [("sample-rate", "k8"); ("frame-size", "none")]%string)
                    blank_settings))
    voiced_session (env_at (t0 + 10 * tick)) loud_frame = None
  /\ voice_detector_new_session
       (geometry_of (voice_detector_parse_config
                       (Some [("sample-rate", "k8"); ("frame-size", "none")]%string)
                       blank_settings))
       1 "call-1" default_runtime_params = None.
Proof.
  split.
  - apply (proj1 (config_zero_geometry_traps
                    [("sample-rate", "k8"); ("frame-size", "none")]%string
                    blank_settings "k8" eq_refl)).
    + reflexivity.
    + reflexivity.
    + discriminate.
  - apply (proj2 (config_zero_geometry_traps
                    [("sample-rate", "k8"); ("frame-size", "none")]%string
                    blank_settings "none" eq_refl)).
    reflexivity.
Defined.

(* ------------------------------------------------------------------ *)
(** ** Recording file names, legs and the application *)

Lemma append_inv_head (a b c : string) :
  (a ++ b)%string = (a ++ c)%string -> b = c.
Proof.
  induction a as [|ch a IH]; cbn; intros H; [exact H|].
  injection H as H. auto.
Qed.

Lemma length_append (a b : string) :
  String.length (a ++ b) = (String.length a + String.length b)%nat.
Proof.
  induction a as [|ch a IH]; cbn; [reflexivity|]. now rewrite IH.
Qed.

Lemma append_inv_tail (s : string) :
  forall a b : string, (a ++ s)%string = (b ++ s)%string -> a = b.
Proof.
  induction a as [|ch a IH]; intros [|ch' b] H.
  - reflexivity.
  - apply (f_equal String.length) in H. cbn in H.
    rewrite length_append in H. lia.
  - apply (f_equal String.length) in H. cbn in H.
    rewrite length_append in H. lia.
  - cbn in H. injection H as -> H. f_equal. auto.
Qed.

Lemma print_long_inj (x y : Z) : print_long x = print_long y -> x = y.
Proof.
  unfold print_long. intros H.
  assert (Hn : forall z, Z.to_int z <> Decimal.Pos Decimal.Nil
                         /\ Z.to_int z <> Decimal.Neg Decimal.Nil).
  { intros [|p|p]; cbn; split; try discriminate;
      intros Hp; injection Hp as Hp;
      exact (DecimalPos.Unsigned.to_uint_nonnil p Hp). }
  apply (f_equal DecimalString.NilZero.int_of_string) in H.
  rewrite !DecimalString.NilZero.isi in H by apply Hn.
  injection H as H.
  apply (f_equal Z.of_int) in H. now rewrite !DecimalZ.of_to in H.
Qed.

(** X22.  Two recording file names made for the same path, prefix, uuid
    and format are the same name exactly when the two clocks fall in the
    same whole second: recordings of one session started within a second of
    each other go to the same file, and no others do. *)
Theorem recording_filename_same_second (path prefix id : string) (format : Z)
    (clock1 clock2 : Z) :
  voice_detector_get_recording_filename path prefix id format clock1
  = voice_detector_get_recording_filename path prefix id format clock2
  <-> Z.quot clock1 1000000 = Z.quot clock2 1000000.
Proof.
  unfold voice_detector_get_recording_filename. split.
  - intros H.
    do 6 apply append_inv_head in H.
    apply append_inv_tail in H.
    now apply print_long_inj.
  - intros ->. reflexivity.
Qed.

(** X23.  The leg selection of [voice_detector_app_function]: the read
    stream is tapped whatever leg is asked for; the write stream is tapped
    for "b" and for "both" alike, so that "b" does not select the write
    stream alone; a leg that is none of a, b, both (in any case) is
    replaced by "a"; and the leg the session keeps is always one of the
    three. *)
Theorem leg_selection (requested : string) :
  let '(flags, l) := select_leg requested in
  SMBF_READ_STREAM flags = true
  /\ SMBF_NO_PAUSE flags = true
  /\ SMBF_WRITE_STREAM flags
     = (strcasecmp_eq requested "b" || strcasecmp_eq requested "both")
  /\ l = (if leg_valid requested then requested else "a"%string)
  /\ leg_valid l = true.
Proof.
  unfold select_leg, leg_valid.
  destruct (strcasecmp_eq requested "a") eqn:Ha.
  { rewrite !(strcasecmp_eq_same_key _ _ _ Ha). eval_names.
    cbn. repeat split; now rewrite ?Ha. }
  destruct (strcasecmp_eq requested "b") eqn:Hb.
  { cbn. repeat split; now rewrite ?Ha, ?Hb. }
  destruct (strcasecmp_eq requested "both") eqn:Hc.
  { cbn. repeat split; now rewrite ?Ha, ?Hb, ?Hc. }
  cbn. repeat split.
Qed.

(** X24.  [voice_detector_app_function] as written never starts the
    monitoring of a session.  It returns without touching the session table
    or asking for a media bug when the channel has no uuid (status false)
    or the uuid is in the table already (status success); for every other
    call it traps, whatever the application data say, at the first store
    through [session_data], which is still the null pointer it was
    initialised to. *)
Theorem app_function_never_registers (c : voice_detector_settings)
    (t : session_table) (sess : Z) (id : option string) (argv : list string)
    (bug_status : switch_status_t) :
  (forall r,
      voice_detector_app_function c t sess id argv bug_status = Some r ->
      app_table r = t /\ app_flags r = None
      /\ (app_status r = SWITCH_STATUS_FALSE <-> id = None)
      /\ (app_status r = SWITCH_STATUS_SUCCESS <->
          exists i s, id = Some i /\ t i = Some s))
  /\ (voice_detector_app_function c t sess id argv bug_status = None
      <-> exists i, id = Some i /\ t i = None).
Proof.
  unfold voice_detector_app_function, app_monitor.
  destruct id as [i|]; [destruct (t i) as [s|] eqn:Ht|]; split.
  - intros r H. injection H as <-. cbn. repeat split; try discriminate.
    + intros _. eauto.
  - split; [discriminate|]. intros (i' & H & Hn). injection H as <-. congruence.
  - intros r H. discriminate.
  - split; eauto.
  - intros r H. injection H as <-. cbn. repeat split; try discriminate.
    + intros (i & s & H & _). discriminate.
  - split; [discriminate|]. intros (i & H & _). discriminate.
Qed.

(* ------------------------------------------------------------------ *)
(** ** The request headers *)

Lemma substring_0_length (n : nat) :
  forall s : string,
    String.length (substring 0 n s) = Nat.min n (String.length s).
Proof.
  induction n as [|n IH]; intros [|ch s]; cbn; auto.
Qed.

Lemma substring_0_all (n : nat) :
  forall s : string, (String.length s <= n)%nat -> substring 0 n s = s.
Proof.
  induction n as [|n IH]; intros [|ch s]; cbn; intros H; auto; try lia.
  f_equal. apply IH. lia.
Qed.

(** X25.  The authorization header of a request is cut to the 255
    characters its buffer holds: an API key of up to 233 characters is sent
    whole after ["Authorization: Bearer "], a longer one is sent
    truncated. *)
Theorem api_authorization_header (key : string) :
  exists h,
    api_headers (Some key) = ["Content-Type: application/json"%string; h]
    /\ (String.length h <= 255)%nat
    /\ ((String.length key <= 233)%nat ->
        h = ("Authorization: Bearer " ++ key)%string)
    /\ ((233 < String.length key)%nat ->
        h <> ("Authorization: Bearer " ++ key)%string).
Proof.
  unfold api_headers. eexists. split; [reflexivity|].
  assert (Hlen : String.length ("Authorization: Bearer " ++ key)
                 = (22 + String.length key)%nat)
    by (rewrite length_append; reflexivity).
  pose proof (substring_0_length 255 ("Authorization: Bearer " ++ key)) as Hs.
  repeat split.
  - lia.
  - intros Hk. apply substring_0_all. lia.
  - intros Hk Heq. rewrite Heq in Hs. lia.
Qed.

(* ------------------------------------------------------------------ *)
(** ** Binary digits and right shifts *)

Lemma digits2_pos_bounds (m : positive) :
  2 ^ (Zpos (digits2_pos m) - 1) <= Zpos m < 2 ^ Zpos (digits2_pos m).
Proof.
  induction m as [m IH|m IH|]; cbn [digits2_pos].
  - rewrite Pos2Z.inj_succ.
    replace (Z.succ (Zpos (digits2_pos m)) - 1) with (Z.succ (Zpos (digits2_pos m) - 1))
      by lia.
    rewrite !Z.pow_succ_r by lia. lia.
  - rewrite Pos2Z.inj_succ.
    replace (Z.succ (Zpos (digits2_pos m)) - 1) with (Z.succ (Zpos (digits2_pos m) - 1))
      by lia.
    rewrite !Z.pow_succ_r by lia. lia.
  - cbn. lia.
Qed.

Lemma Zdigits2_bounds (m : Z) :
  0 < m -> 2 ^ (Zdigits2 m - 1) <= m < 2 ^ Zdigits2 m.
Proof.
  destruct m as [|p|p]; try lia. intros _. apply digits2_pos_bounds.
Qed.




Lemma Zdigits2_le (a b : Z) : 0 < a -> a <= b -> Zdigits2 a <= Zdigits2 b.
Proof.
  intros Ha Hab.
  pose proof (Zdigits2_bounds a Ha) as [Hl _].
  pose proof (Zdigits2_bounds b ltac:(lia)) as [_ Hu].
  destruct (Z_lt_le_dec (Zdigits2 b) (Zdigits2 a)) as [Hlt|]; [|assumption].
  assert (2 ^ Zdigits2 b <= 2 ^ (Zdigits2 a - 1))
    by (apply Z.pow_le_mono_r; lia).
  lia.
Qed.







(* ------------------------------------------------------------------ *)
(** ** Dyadic numbers as reals *)

Lemma pow2_gt_0 (e : Z) : (0 < powerRZ 2 e)%R.
Proof. apply powerRZ_lt. lra. Qed.

Lemma pow2_add (a b : Z) : powerRZ 2 (a + b) = (powerRZ 2 a * powerRZ 2 b)%R.
Proof. apply powerRZ_add. lra. Qed.

Lemma pow2_IZR (n : Z) : 0 <= n -> powerRZ 2 n = IZR (2 ^ n).
Proof.
  destruct n as [|p|p]; try lia; intros _.
  - reflexivity.
  - symmetry. exact (Zpower_pos_powerRZ 2 p).
Qed.


Lemma pow2_lt (a b : Z) : a < b -> (powerRZ 2 a < powerRZ 2 b)%R.
Proof.
  intros H. replace b with (a + (b - a)) by lia.
  rewrite pow2_add, (pow2_IZR (b - a)) by lia.
  assert (2 <= 2 ^ (b - a)).
  { change 2 with (2 ^ 1) at 1. apply Z.pow_le_mono_r; lia. }
  apply IZR_le in H0. pose proof (pow2_gt_0 a). nra.
Qed.








Lemma F2R_0 (e : Z) : F2R 0 e = 0%R.
Proof. unfold F2R. ring. Qed.





(* ------------------------------------------------------------------ *)
(** ** Rounding to a binary format *)








Section Rounding.

Variables prec emax : Z.
Hypothesis Hprec : 0 < prec.

Let fexp := SpecFloat.fexp prec emax.
Let emin := SpecFloat.emin prec emax.


Lemma fexp_mono (x y : Z) : x <= y -> fexp x <= fexp y.
Proof using All. unfold fexp, emin, SpecFloat.fexp. lia. Qed.









End Rounding.

(* ------------------------------------------------------------------ *)
(** ** Addition, division and square root of positive floats *)






Section Operations.

Variables prec emax : Z.
Hypothesis Hprec : 1 < prec.

Let emin := SpecFloat.emin prec emax.






End Operations.

(* ------------------------------------------------------------------ *)
(** ** The energy score *)


















(* ------------------------------------------------------------------ *)
(** ** Frames of 2^24 samples and more *)














